(** * Bid, job and payment workflow of the freelancing backend

    A shallow embedding of the route handlers of [routes/bids.js],
    [routes/jobs.js] and [routes/payment.js] over an explicit model of the
    MongoDB collections they read and write.

    Conventions of the model.
    - A handler is a function from the store (and the request) to the new
      store and the response; a JavaScript exception caught by the handler's
      [try]/[catch] is the 500 reply of that handler, with the writes made
      before the exception kept.
    - ObjectIds are natural numbers drawn from a counter that never goes
      back, so an identifier is never issued twice.
    - Monetary amounts and counters are integers.
    - [req.user] is the account the [auth] middleware attached to the request.
    - Mongoose's [createdAt]/[updatedAt] stamps, attachments and the response
      payload besides the status code and the message are left out. *)

From stdpp Require Import gmap strings list fin_maps.
From Stdlib Require Import ZArith.

(** ** Accounts *)

Inductive Role := freelancer | job_provider.

#[global] Instance Role_eq_dec : EqDecision Role.
Proof. solve_decision. Defined.

(** [req.user]: the authenticated account. *)
Record User := { user_id : nat; role : Role }.

(** ** Documents *)

Module Job.

Inductive Status := open | in_progress | completed | cancelled.

#[global] Instance Status_eq_dec : EqDecision Status.
Proof. solve_decision. Defined.

Record t := mk {
  title : string;
  description : string;
  category : string;
  budget : Z;
  budgetType : string;
  skills : list string;
  duration : option string;
  experienceLevel : string;
  createdBy : nat;
  status : Status;
  assignedTo : option nat;
  bidsCount : Z
}.

(** The [status] enum of the schema, as the strings a request carries. *)
Definition status_of_string (x : string) : option Status :=
  if decide (x = "open") then Some open
  else if decide (x = "in_progress") then Some in_progress
  else if decide (x = "completed") then Some completed
  else if decide (x = "cancelled") then Some cancelled
  else None.

Definition set_status (st : Status) (j : t) : t :=
  mk (title j) (description j) (category j) (budget j) (budgetType j)
     (skills j) (duration j) (experienceLevel j) (createdBy j)
     st (assignedTo j) (bidsCount j).

(** [{ status: 'in_progress', assignedTo: f }] *)
Definition assign (f : nat) (j : t) : t :=
  mk (title j) (description j) (category j) (budget j) (budgetType j)
     (skills j) (duration j) (experienceLevel j) (createdBy j)
     in_progress (Some f) (bidsCount j).

(** [{ $inc: { bidsCount: d } }] *)
Definition inc_bidsCount (d : Z) (j : t) : t :=
  mk (title j) (description j) (category j) (budget j) (budgetType j)
     (skills j) (duration j) (experienceLevel j) (createdBy j)
     (status j) (assignedTo j) (bidsCount j + d)%Z.

End Job.

Module Bid.

Inductive Status := pending | accepted | rejected.

#[global] Instance Status_eq_dec : EqDecision Status.
Proof. solve_decision. Defined.

Record t := mk {
  freelancerId : nat;
  jobId : nat;
  bidAmount : Z;
  message : string;
  deliveryTime : Z;
  status : Status
}.

Definition set_status (st : Status) (b : t) : t :=
  mk (freelancerId b) (jobId b) (bidAmount b) (message b) (deliveryTime b) st.

End Bid.

Module Payment.

Inductive Status := created | paid | failed | refunded.

#[global] Instance Status_eq_dec : EqDecision Status.
Proof. solve_decision. Defined.

Record t := mk {
  jobId : nat;
  payerId : nat;
  payeeId : nat;
  amount : Z;
  razorpayOrderId : string;
  razorpayPaymentId : option string;
  razorpaySignature : option string;
  status : Status;
  description : string
}.

Definition set_status (st : Status) (p : t) : t :=
  mk (jobId p) (payerId p) (payeeId p) (amount p) (razorpayOrderId p)
     (razorpayPaymentId p) (razorpaySignature p) st (description p).

(** The three assignments of the verify route before [payment.save()]. *)
Definition settle (pid sig : string) (p : t) : t :=
  mk (jobId p) (payerId p) (payeeId p) (amount p) (razorpayOrderId p)
     (Some pid) (Some sig) paid (description p).

(** The two assignments of [handlePaymentCaptured]. *)
Definition capture (pid : string) (p : t) : t :=
  mk (jobId p) (payerId p) (payeeId p) (amount p) (razorpayOrderId p)
     (Some pid) (razorpaySignature p) paid (description p).

End Payment.

(** ** The store

    [users] holds the identifiers of the registered accounts (no route deletes
    an account). Jobs and bids are keyed by [_id]. Payments are never deleted,
    so the collection is a list in insertion order and a payment's [_id] is
    its position. *)

Record Store := mkStore {
  users : gset nat;
  jobs : gmap nat Job.t;
  bids : gmap nat Bid.t;
  payments : list Payment.t;
  next_id : nat
}.

Definition initial (us : gset nat) : Store := mkStore us ∅ ∅ [] 0.

Definition with_jobs (js : gmap nat Job.t) (s : Store) : Store :=
  mkStore (users s) js (bids s) (payments s) (next_id s).

Definition with_bids (bs : gmap nat Bid.t) (s : Store) : Store :=
  mkStore (users s) (jobs s) bs (payments s) (next_id s).

Definition with_payments (ps : list Payment.t) (s : Store) : Store :=
  mkStore (users s) (jobs s) (bids s) ps (next_id s).

Definition with_next_id (n : nat) (s : Store) : Store :=
  mkStore (users s) (jobs s) (bids s) (payments s) n.

(** ** Responses *)

Inductive Response :=
| Json (code : nat) (message : string)
    (* res.status(code).json({ message, ... }) *)
| ValidationErrors (errors : list string)
    (* res.status(400).json({ errors: errors.array() }) *)
| Forbidden
    (* the refusal of the authorize middleware *)
| WebhookOk.
    (* res.json({ status: 'ok' }) *)

(** ** Mongoose operations used by the routes *)

Definition Job_findById (id : nat) (s : Store) : option Job.t := jobs s !! id.

(** [Job.findByIdAndUpdate(id, upd)]: nothing happens when no job has [id]. *)
Definition Job_findByIdAndUpdate (id : nat) (upd : Job.t → Job.t) (s : Store) : Store :=
  with_jobs (alter upd id (jobs s)) s.

Definition same_pair (f j : nat) (b : Bid.t) : Prop :=
  Bid.freelancerId b = f ∧ Bid.jobId b = j.

#[global] Instance same_pair_dec f j b : Decision (same_pair f j b).
Proof. unfold same_pair. apply _. Defined.

(** [Bid.findOne({ freelancerId: f, jobId: j })], as the test the route makes
    of it. *)
Definition Bid_exists (f j : nat) (m : gmap nat Bid.t) : Prop :=
  map_Exists (λ _ b, same_pair f j b) m.

#[global] Instance Bid_exists_dec f j m : Decision (Bid_exists f j m).
Proof. unfold Bid_exists. apply _. Defined.

(** [bid.save()] of a new document: the unique index
    [{ freelancerId: 1, jobId: 1 }] of the schema makes the store refuse a
    second bid of one freelancer on one job (a duplicate key error). *)
Definition Bid_create (id : nat) (b : Bid.t) (m : gmap nat Bid.t) : option (gmap nat Bid.t) :=
  if decide (Bid_exists (Bid.freelancerId b) (Bid.jobId b) m) then None
  else Some (<[id:=b]> m).

(** [Bid.updateMany({ jobId: j, _id: { $ne: keep } }, { status: 'rejected' })] *)
Definition Bid_rejectOthers (j keep : nat) (m : gmap nat Bid.t) : gmap nat Bid.t :=
  map_imap (λ i b,
    Some (if decide (Bid.jobId b = j ∧ i ≠ keep)
          then Bid.set_status Bid.rejected b else b)) m.

(** [Bid.deleteMany({ jobId: j })] *)
Definition Bid_deleteMany (j : nat) (m : gmap nat Bid.t) : gmap nat Bid.t :=
  filter (λ ib, Bid.jobId ib.2 ≠ j) m.

(** [Payment.findOne({ razorpayOrderId: oid })]: the first payment of the
    collection with that order id, and its position. *)
Definition Payment_findOne (oid : string) (s : Store) : option (nat * Payment.t) :=
  list_find (λ p, Payment.razorpayOrderId p = oid) (payments s).

(** [payment.save()] of a loaded document. *)
Definition Payment_save (i : nat) (p : Payment.t) (s : Store) : Store :=
  with_payments (<[i:=p]> (payments s)) s.

(** [populate] of a reference to an account: [null] when the account is not
    in the collection. *)
Definition populate_user (id : nat) (s : Store) : option nat :=
  if decide (id ∈ users s) then Some id else None.

(** ** Request validation (express-validator chains) *)

Fixpoint ltrim (x : string) : string :=
  match x with
  | String a x' => if Ascii.is_space a then ltrim x' else x
  | EmptyString => EmptyString
  end.

Definition trim (x : string) : string :=
  String.rev (ltrim (String.rev (ltrim x))).

Definition check (ok : bool) (msg : string) : list string :=
  if ok then [] else [msg].

(** Modelled from the spec: the [authorize] middleware of [middleware/auth],
    which is not among the sources. The role of an actor gates the operations
    the actor may perform: a request of an account with another role is
    refused before the handler runs. *)
Definition authorize (r : Role) (u : User) : bool := bool_decide (role u = r).

(** JavaScript's [x || d] on an optional string: [undefined] and the empty
    string are both falsy. *)
Definition or_default (x : option string) (d : string) : string :=
  match x with
  | Some v => if decide (v = "") then d else v
  | None => d
  end.

Definition or_else (x y : option string) : option string :=
  match x with
  | Some v => if decide (v = "") then y else x
  | None => y
  end.

(** ** Bids: [routes/bids.js] *)

Module BidReq.
Record t := mk { jobId : nat; bidAmount : Z; message : string; deliveryTime : Z }.
End BidReq.

Definition placeBid_errors (b : BidReq.t) : list string :=
  check (bool_decide (1 ≤ BidReq.bidAmount b)%Z) "Bid amount must be a positive number"
  ++ check (bool_decide (10 ≤ String.length (trim (BidReq.message b))))
       "Message must be at least 10 characters"
  ++ check (bool_decide (1 ≤ BidReq.deliveryTime b)%Z) "Delivery time must be at least 1 day".

(** POST /api/bids *)
Definition placeBid (u : User) (b : BidReq.t) (s : Store) : Store * Response :=
  if negb (authorize freelancer u) then (s, Forbidden) else
  match placeBid_errors b with
  | _ :: _ as errors => (s, ValidationErrors errors)
  | [] =>
    match Job_findById (BidReq.jobId b) s with
    | None => (s, Json 404 "Job not found")
    | Some job =>
      if decide (Job.status job ≠ Job.open)
      then (s, Json 400 "Job is not open for bidding")
      else if decide (Bid_exists (user_id u) (BidReq.jobId b) (bids s))
      then (s, Json 400 "You have already bid on this job")
      else
        let bid := Bid.mk (user_id u) (BidReq.jobId b) (BidReq.bidAmount b)
                     (trim (BidReq.message b)) (BidReq.deliveryTime b) Bid.pending in
        match Bid_create (next_id s) bid (bids s) with
        | None => (s, Json 500 "Server error creating bid")
        | Some bs =>
          let s1 := with_next_id (S (next_id s)) (with_bids bs s) in
          (Job_findByIdAndUpdate (BidReq.jobId b) (Job.inc_bidsCount 1) s1,
           Json 201 "Bid submitted successfully")
        end
    end
  end.

(** PUT /api/bids/:id/accept. The bid is loaded with its job and its
    freelancer populated; a job that is gone makes [bid.jobId.createdBy]
    throw before any write, an account that is gone makes
    [bid.freelancerId._id] throw after the bid was saved. *)
Definition acceptBid (u : User) (id : nat) (s : Store) : Store * Response :=
  match bids s !! id with
  | None => (s, Json 404 "Bid not found")
  | Some bid =>
    match Job_findById (Bid.jobId bid) s with
    | None => (s, Json 500 "Server error accepting bid")
    | Some job =>
      if decide (Job.createdBy job ≠ user_id u)
      then (s, Json 403 "Not authorized to accept this bid")
      else if decide (Job.status job ≠ Job.open)
      then (s, Json 400 "Job is no longer open")
      else
        let s1 := with_bids (<[id := Bid.set_status Bid.accepted bid]> (bids s)) s in
        match populate_user (Bid.freelancerId bid) s with
        | None => (s1, Json 500 "Server error accepting bid")
        | Some f =>
          let s2 := Job_findByIdAndUpdate (Bid.jobId bid) (Job.assign f) s1 in
          (with_bids (Bid_rejectOthers (Bid.jobId bid) id (bids s2)) s2,
           Json 200 "Bid accepted successfully")
        end
    end
  end.

(** PUT /api/bids/:id/reject *)
Definition rejectBid (u : User) (id : nat) (s : Store) : Store * Response :=
  match bids s !! id with
  | None => (s, Json 404 "Bid not found")
  | Some bid =>
    match Job_findById (Bid.jobId bid) s with
    | None => (s, Json 500 "Server error rejecting bid")
    | Some job =>
      if decide (Job.createdBy job ≠ user_id u)
      then (s, Json 403 "Not authorized to reject this bid")
      else
        (with_bids (<[id := Bid.set_status Bid.rejected bid]> (bids s)) s,
         Json 200 "Bid rejected successfully")
    end
  end.

(** DELETE /api/bids/:id *)
Definition deleteBid (u : User) (id : nat) (s : Store) : Store * Response :=
  match bids s !! id with
  | None => (s, Json 404 "Bid not found")
  | Some bid =>
    if decide (Bid.freelancerId bid ≠ user_id u)
    then (s, Json 403 "Not authorized to delete this bid")
    else if decide (Bid.status bid ≠ Bid.pending)
    then (s, Json 400 "Cannot delete a bid that has been accepted or rejected")
    else
      (Job_findByIdAndUpdate (Bid.jobId bid) (Job.inc_bidsCount (-1))
         (with_bids (delete id (bids s)) s),
       Json 200 "Bid deleted successfully")
  end.

(** ** Jobs: [routes/jobs.js] *)

Definition categories : list string :=
  ["Web Development"; "Mobile Development"; "Design"; "Writing"; "Data Entry";
   "Digital Marketing"; "Video Editing"; "Translation"; "Other"].

Definition budgetTypes : list string := ["fixed"; "hourly"].

Definition durations : list string :=
  ["less_than_1_week"; "1_to_4_weeks"; "1_to_3_months"; "3_to_6_months";
   "more_than_6_months"].

Definition experienceLevels : list string := ["entry"; "intermediate"; "expert"].

Module JobReq.
Record t := mk {
  title : string;
  description : string;
  category : string;
  budget : Z;
  budgetType : option string;
  skills : option (list string);
  duration : option string;
  experienceLevel : option string
}.
End JobReq.

Definition createJob_errors (b : JobReq.t) : list string :=
  check (bool_decide (5 ≤ String.length (trim (JobReq.title b))))
    "Title must be at least 5 characters"
  ++ check (bool_decide (20 ≤ String.length (trim (JobReq.description b))))
       "Description must be at least 20 characters"
  ++ check (bool_decide (JobReq.category b ∈ categories)) "Invalid category"
  ++ check (bool_decide (1 ≤ JobReq.budget b)%Z) "Budget must be a positive number".

(** The enum validators of the job schema that [job.save()] runs on the
    fields the request chains do not check. *)
Definition job_enums_ok (b : JobReq.t) : bool :=
  bool_decide (or_default (JobReq.budgetType b) "fixed" ∈ budgetTypes)
  && match JobReq.duration b with
     | Some d => bool_decide (d ∈ durations)
     | None => true
     end
  && bool_decide (or_default (JobReq.experienceLevel b) "intermediate" ∈ experienceLevels).

(** POST /api/jobs. The schema defaults give the new job [status = open],
    no [assignedTo] and [bidsCount = 0]. *)
Definition createJob (u : User) (b : JobReq.t) (s : Store) : Store * Response :=
  if negb (authorize job_provider u) then (s, Forbidden) else
  match createJob_errors b with
  | _ :: _ as errors => (s, ValidationErrors errors)
  | [] =>
    if negb (job_enums_ok b) then (s, Json 500 "Server error creating job")
    else
      let job := Job.mk (trim (JobReq.title b)) (trim (JobReq.description b))
                   (JobReq.category b) (JobReq.budget b)
                   (or_default (JobReq.budgetType b) "fixed")
                   (default [] (JobReq.skills b)) (JobReq.duration b)
                   (or_default (JobReq.experienceLevel b) "intermediate")
                   (user_id u) Job.open None 0 in
      (with_next_id (S (next_id s)) (with_jobs (<[next_id s := job]> (jobs s)) s),
       Json 201 "Job created successfully")
  end.

Module JobUpdate.
Record t := mk {
  title : option string;
  description : option string;
  budget : option Z;
  skills : option (list string);
  status : option string
}.
End JobUpdate.

(** The update validators ([runValidators: true]) on the fields that are
    set: [required], [min: 0] and the [status] enum. *)
Definition updateJob_valid (b : JobUpdate.t) : bool :=
  match JobUpdate.title b with Some x => negb (bool_decide (trim x = "")) | None => true end
  && match JobUpdate.description b with Some x => negb (bool_decide (x = "")) | None => true end
  && match JobUpdate.budget b with Some x => bool_decide (0 ≤ x)%Z | None => true end
  && match JobUpdate.status b with
     | Some x => bool_decide (is_Some (Job.status_of_string x))
     | None => true
     end.

(** The [updates] object applied to the job: only the allowed fields that the
    request defines, [status] among them. *)
Definition apply_updates (b : JobUpdate.t) (j : Job.t) : Job.t :=
  Job.mk (from_option trim (Job.title j) (JobUpdate.title b))
    (default (Job.description j) (JobUpdate.description b))
    (Job.category j)
    (default (Job.budget j) (JobUpdate.budget b))
    (Job.budgetType j)
    (default (Job.skills j) (JobUpdate.skills b))
    (Job.duration j) (Job.experienceLevel j) (Job.createdBy j)
    (default (Job.status j) (JobUpdate.status b ≫= Job.status_of_string))
    (Job.assignedTo j) (Job.bidsCount j).

(** PUT /api/jobs/:id *)
Definition updateJob (u : User) (id : nat) (b : JobUpdate.t) (s : Store) : Store * Response :=
  if negb (authorize job_provider u) then (s, Forbidden) else
  match Job_findById id s with
  | None => (s, Json 404 "Job not found")
  | Some job =>
    if decide (Job.createdBy job ≠ user_id u)
    then (s, Json 403 "Not authorized to update this job")
    else if negb (updateJob_valid b)
    then (s, Json 500 "Server error updating job")
    else (Job_findByIdAndUpdate id (apply_updates b) s, Json 200 "Job updated successfully")
  end.

(** DELETE /api/jobs/:id: the job goes, and every bid on it with it. *)
Definition deleteJob (u : User) (id : nat) (s : Store) : Store * Response :=
  if negb (authorize job_provider u) then (s, Forbidden) else
  match Job_findById id s with
  | None => (s, Json 404 "Job not found")
  | Some job =>
    if decide (Job.createdBy job ≠ user_id u)
    then (s, Json 403 "Not authorized to delete this job")
    else
      (with_bids (Bid_deleteMany id (bids s)) (with_jobs (delete id (jobs s)) s),
       Json 200 "Job deleted successfully")
  end.

(** ** Payments: [routes/payment.js] *)

(** [process.env] as the payment routes read it. *)
Record Env := {
  RAZORPAY_KEY_SECRET : option string;
  RAZORPAY_WEBHOOK_SECRET : option string
}.

Module OrderReq.
Record t := mk { jobId : nat; amount : Z; description : option string }.
End OrderReq.

Module VerifyReq.
Record t := mk {
  razorpay_order_id : option string;
  razorpay_payment_id : option string;
  razorpay_signature : option string
}.
End VerifyReq.

(** [event.payload.payment.entity] of a gateway notification. *)
Record Entity := { order_id : string; entity_id : string }.

Inductive WebhookEvent :=
| payment_captured (e : Entity)
| payment_failed (e : Entity)
| unhandled (name : string).

Definition createOrder_errors (b : OrderReq.t) : list string :=
  check (bool_decide (1 ≤ OrderReq.amount b)%Z) "Amount must be a positive number".

(** POST /api/payment/create-order. [order] is what the gateway answered to
    [razorpay.orders.create]: the identifier of the new order, or nothing
    when the call failed. A job counts as assigned when [assignedTo]
    populates to an account. *)
Definition createOrder (u : User) (b : OrderReq.t) (order : option string) (s : Store)
    : Store * Response :=
  if negb (authorize job_provider u) then (s, Forbidden) else
  match createOrder_errors b with
  | _ :: _ as errors => (s, ValidationErrors errors)
  | [] =>
    match Job_findById (OrderReq.jobId b) s with
    | None => (s, Json 404 "Job not found")
    | Some job =>
      if decide (Job.createdBy job ≠ user_id u)
      then (s, Json 403 "Not authorized to make payment for this job")
      else
        match Job.assignedTo job ≫= λ f, populate_user f s with
        | None => (s, Json 400 "Job has not been assigned to any freelancer")
        | Some f =>
          match order with
          | None => (s, Json 500 "Server error creating payment order")
          | Some oid =>
            if decide (oid = "") then (s, Json 500 "Server error creating payment order")
            else
              let p := Payment.mk (OrderReq.jobId b) (user_id u) f (OrderReq.amount b)
                         oid None None Payment.created
                         (or_default (OrderReq.description b)
                            (String.app "Payment for job: " (Job.title job))) in
              (with_payments (payments s ++ [p]) s,
               Json 200 "Payment order created successfully")
          end
        end
    end
  end.

Definition verifyPayment_errors (b : VerifyReq.t) : list string :=
  check (bool_decide (is_Some (VerifyReq.razorpay_order_id b))) "Order ID is required"
  ++ check (bool_decide (is_Some (VerifyReq.razorpay_payment_id b))) "Payment ID is required"
  ++ check (bool_decide (is_Some (VerifyReq.razorpay_signature b))) "Signature is required".

(** [Job.findByIdAndUpdate(jobId, { status: 'completed' })]: the settlement
    transition of a job. *)
Definition transitionOnSettlement (jobId : nat) (s : Store) : Store :=
  Job_findByIdAndUpdate jobId (Job.set_status Job.completed) s.

(** [handlePaymentCaptured(paymentData)] *)
Definition handlePaymentCaptured (e : Entity) (s : Store) : Store :=
  match Payment_findOne (order_id e) s with
  | Some (i, p) =>
    transitionOnSettlement (Payment.jobId p)
      (Payment_save i (Payment.capture (entity_id e) p) s)
  | None => s
  end.

(** [handlePaymentFailed(paymentData)] *)
Definition handlePaymentFailed (e : Entity) (s : Store) : Store :=
  match Payment_findOne (order_id e) s with
  | Some (i, p) => Payment_save i (Payment.set_status Payment.failed p) s
  | None => s
  end.

Section Gateway.

(** [crypto.createHmac('sha256', key).update(data).digest('hex')], as a
    function of the key and of the data. *)
Variable hmac_sha256_hex : string → string → string.

(** [JSON.parse] of a notification body, read through [event.event] and
    [event.payload.payment.entity]; nothing when parsing or the property
    access throws. *)
Variable parse_event : string → option WebhookEvent.

Variable env : Env.

(** The signature the verify route computes for an order and a payment. *)
Definition expectedSignature (key oid pid : string) : string :=
  hmac_sha256_hex key (String.app oid (String.app "|" pid)).

(** POST /api/payment/verify. The handler does not read [req.user]. When the
    job of the payment is gone, [payment.jobId] populates to [null] and
    [payment.jobId._id] throws after the payment was saved. *)
Definition verifyPayment (u : User) (b : VerifyReq.t) (s : Store) : Store * Response :=
  match VerifyReq.razorpay_order_id b, VerifyReq.razorpay_payment_id b,
        VerifyReq.razorpay_signature b with
  | Some oid, Some pid, Some sig =>
    match Payment_findOne oid s with
    | None => (s, Json 404 "Payment record not found")
    | Some (i, payment) =>
      match RAZORPAY_KEY_SECRET env with
      | None => (s, Json 500 "Server error verifying payment")
      | Some key =>
        if decide (expectedSignature key oid pid ≠ sig)
        then (Payment_save i (Payment.set_status Payment.failed payment) s,
              Json 400 "Invalid payment signature")
        else
          let s1 := Payment_save i (Payment.settle pid sig payment) s in
          match Job_findById (Payment.jobId payment) s with
          | None => (s1, Json 500 "Server error verifying payment")
          | Some _ =>
            (transitionOnSettlement (Payment.jobId payment) s1,
             Json 200 "Payment verified successfully")
          end
      end
    end
  | _, _, _ => (s, ValidationErrors (verifyPayment_errors b))
  end.

(** POST /api/payment/webhook, on the raw body that the route's
    [express.raw] parser is declared to deliver. *)
Definition webhook (signature : option string) (body : string) (s : Store)
    : Store * Response :=
  match or_else (RAZORPAY_WEBHOOK_SECRET env) (RAZORPAY_KEY_SECRET env) with
  | None => (s, Json 500 "Webhook processing error")
  | Some key =>
    if decide (signature ≠ Some (hmac_sha256_hex key body))
    then (s, Json 400 "Invalid webhook signature")
    else
      match parse_event body with
      | None => (s, Json 500 "Webhook processing error")
      | Some (payment_captured e) => (handlePaymentCaptured e s, WebhookOk)
      | Some (payment_failed e) => (handlePaymentFailed e s, WebhookOk)
      | Some (unhandled _) => (s, WebhookOk)
      end
  end.

(** ** The system: one request at a time *)

Inductive Request :=
| CreateJob (u : User) (b : JobReq.t)
| UpdateJob (u : User) (id : nat) (b : JobUpdate.t)
| DeleteJob (u : User) (id : nat)
| PlaceBid (u : User) (b : BidReq.t)
| AcceptBid (u : User) (id : nat)
| RejectBid (u : User) (id : nat)
| DeleteBid (u : User) (id : nat)
| CreateOrder (u : User) (b : OrderReq.t) (order : option string)
| VerifyPayment (u : User) (b : VerifyReq.t)
| Webhook (signature : option string) (body : string).

Definition handle (r : Request) (s : Store) : Store * Response :=
  match r with
  | CreateJob u b => createJob u b s
  | UpdateJob u id b => updateJob u id b s
  | DeleteJob u id => deleteJob u id s
  | PlaceBid u b => placeBid u b s
  | AcceptBid u id => acceptBid u id s
  | RejectBid u id => rejectBid u id s
  | DeleteBid u id => deleteBid u id s
  | CreateOrder u b order => createOrder u b order s
  | VerifyPayment u b => verifyPayment u b s
  | Webhook sig body => webhook sig body s
  end.

(** The stores the system can be in: the empty collections, and what a
    request makes of a store the system can be in. *)
Inductive reachable : Store → Prop :=
| reachable_initial us : reachable (initial us)
| reachable_handle r s : reachable s → reachable (handle r s).1.


(** ** Properties of stores *)

(** A job is assigned exactly when it is in progress or completed. *)
Definition job_invariant (j : Job.t) : Prop :=
  is_Some (Job.assignedTo j) ↔
  Job.status j = Job.in_progress ∨ Job.status j = Job.completed.

#[global] Instance job_invariant_dec j : Decision (job_invariant j).
Proof. unfold job_invariant. apply _. Defined.

Definition jobs_consistent (s : Store) : Prop :=
  map_Forall (λ _ j, job_invariant j) (jobs s).

#[global] Instance jobs_consistent_dec s : Decision (jobs_consistent s).
Proof. unfold jobs_consistent. apply _. Defined.

(** No two bids of one freelancer on one job. *)
Definition unique_bids (m : gmap nat Bid.t) : Prop :=
  ∀ i1 i2 b1 b2, m !! i1 = Some b1 → m !! i2 = Some b2 →
    Bid.freelancerId b1 = Bid.freelancerId b2 → Bid.jobId b1 = Bid.jobId b2 →
    i1 = i2.

(** What every store the system can be in satisfies: identifiers in use were
    issued by the counter, a bid has its job, bids are unique per freelancer
    and job, and the job of a payment, while it exists, is assigned. *)
Record well_formed (s : Store) : Prop := {
  wf_jobs_fresh : ∀ id, is_Some (jobs s !! id) → id < next_id s;
  wf_bids_fresh : ∀ id, is_Some (bids s !! id) → id < next_id s;
  wf_bid_job : ∀ id b, bids s !! id = Some b → is_Some (jobs s !! Bid.jobId b);
  wf_unique : unique_bids (bids s);
  wf_payment_job : ∀ p, p ∈ payments s →
    Payment.jobId p < next_id s ∧
    ∀ j, jobs s !! Payment.jobId p = Some j → is_Some (Job.assignedTo j)
}.

(** An update of a job that carries a [status] field: the owner's override
    of the lifecycle. *)
Definition is_status_override (r : Request) : Prop :=
  match r with
  | UpdateJob _ _ b => is_Some (JobUpdate.status b)
  | _ => False
  end.

Definition decided (b : Bid.t) : Prop := Bid.status b ≠ Bid.pending.

(** The bit [k] of the character [i] of a string, flipped. *)
Definition flip_ascii (k : nat) (a : Ascii.ascii) : Ascii.ascii :=
  Ascii.ascii_of_N (N.lxor (Ascii.N_of_ascii a) (N.shiftl 1 (N.of_nat k))).

Fixpoint flip_bit (i k : nat) (x : string) : string :=
  match x, i with
  | EmptyString, _ => EmptyString
  | String a x', 0 => String (flip_ascii k a) x'
  | String a x', S i' => String a (flip_bit i' k x')
  end.

End Gateway.

(** ** A worked scenario

    One job provider, two freelancers and an outsider; a stand-in for the
    keyed digest and for the notification parser, to run the handlers on
    examples. *)

Definition sample_hmac (key data : string) : string :=
  String.app key (String.app ":" data).

Definition sample_parse (body : string) : option WebhookEvent :=
  if decide (body = "captured order_1")
  then Some (payment_captured {| order_id := "order_1"; entity_id := "pay_1" |})
  else if decide (body = "failed order_1")
  then Some (payment_failed {| order_id := "order_1"; entity_id := "pay_1" |})
  else if decide (body = "refund order_1") then Some (unhandled "refund.created")
  else None.

Definition sample_env : Env :=
  {| RAZORPAY_KEY_SECRET := Some "secret"; RAZORPAY_WEBHOOK_SECRET := None |}.

Definition owner : User := {| user_id := 100; role := job_provider |}.
Definition alice : User := {| user_id := 101; role := freelancer |}.
Definition bob : User := {| user_id := 102; role := freelancer |}.
Definition mallory : User := {| user_id := 103; role := freelancer |}.

Definition run (rs : list Request) (s : Store) : Store :=
  foldl (λ s r, (handle sample_hmac sample_parse sample_env r s).1) s rs.

Definition sample_job : JobReq.t :=
  JobReq.mk "Landing page" "Build a landing page for a shop" "Web Development" 500
    None None None None.

Definition bid_of_alice : BidReq.t := BidReq.mk 0 400 "I can do this in a week" 7.
Definition bid_of_bob : BidReq.t := BidReq.mk 0 450 "Happy to help with it" 5.

(** Job 0 is open, with bid 1 of alice and bid 2 of bob. *)
Definition store_open : Store :=
  run [CreateJob owner sample_job; PlaceBid alice bid_of_alice; PlaceBid bob bid_of_bob]
    (initial {[100; 101; 102; 103]}).

(** The owner accepted the bid of alice. *)
Definition store_assigned : Store := run [AcceptBid owner 1] store_open.

(** The owner created a payment intent of 500; the gateway issued [order_1]. *)
Definition store_ordered : Store :=
  run [CreateOrder owner (OrderReq.mk 0 500 None) (Some "order_1")] store_assigned.

Definition verify_req (sig : string) : VerifyReq.t :=
  VerifyReq.mk (Some "order_1") (Some "pay_1") (Some sig).

Definition good_signature : string := "secret:order_1|pay_1".

(** The payment was verified with the matching signature. *)
Definition store_paid : Store :=
  run [VerifyPayment owner (verify_req good_signature)] store_ordered.

(** The owner rejected the bid of alice while the job was open. *)
Definition store_rejected : Store := run [RejectBid owner 1] store_open.


(** Accepting and rejecting: the two requests that decide a bid. *)
Definition is_decision (r : Request) : Prop :=
  match r with
  | AcceptBid _ _ | RejectBid _ _ => True
  | _ => False
  end.

(** The reply with which the verify route rejects a signature. *)
Definition rejects (r : Response) : Prop := r = Json 400 "Invalid payment signature".

(** The owner rejected the bid of alice, then accepted it. *)
Definition store_reaccepted : Store := run [AcceptBid owner 1] store_rejected.

(** The owner accepted the bid of alice, then rejected it. *)
Definition store_unaccepted : Store := run [RejectBid owner 1] store_assigned.

(** ** Further properties of stores *)

(** The number of bids on a job. *)
Definition bid_count (j : nat) (m : gmap nat Bid.t) : nat :=
  size (filter (λ ib, Bid.jobId ib.2 = j) m).

(** [bidsCount] of every job is the number of the bids on it. *)
Definition counts_consistent (s : Store) : Prop :=
  ∀ id job, jobs s !! id = Some job →
    Job.bidsCount job = Z.of_nat (bid_count id (bids s)).

(** No two accepted bids on one job. *)
Definition accepted_unique (m : gmap nat Bid.t) : Prop :=
  ∀ i1 i2 b1 b2, m !! i1 = Some b1 → m !! i2 = Some b2 →
    Bid.status b1 = Bid.accepted → Bid.status b2 = Bid.accepted →
    Bid.jobId b1 = Bid.jobId b2 → i1 = i2.

(** Every bid is of a registered account. *)
Definition bids_registered (s : Store) : Prop :=
  ∀ i b, bids s !! i = Some b → Bid.freelancerId b ∈ users s.

(** The account a request was made by; the gateway's notifications carry
    none. *)
Definition caller (r : Request) : option User :=
  match r with
  | CreateJob u _ | UpdateJob u _ _ | DeleteJob u _ | PlaceBid u _
  | AcceptBid u _ | RejectBid u _ | DeleteBid u _ | CreateOrder u _ _
  | VerifyPayment u _ => Some u
  | Webhook _ _ => None
  end.

(** The ways in which a request changes the bids, each with what the route
    checked before it wrote. *)
Inductive bids_change (s : Store) : Request → gmap nat Bid.t → Prop :=
| bids_unchanged r : bids_change s r (bids s)
| bids_placed u b job :
    role u = freelancer →
    placeBid_errors b = [] →
    jobs s !! BidReq.jobId b = Some job →
    Job.status job = Job.open →
    ¬ Bid_exists (user_id u) (BidReq.jobId b) (bids s) →
    bids_change s (PlaceBid u b)
      (<[next_id s := Bid.mk (user_id u) (BidReq.jobId b) (BidReq.bidAmount b)
                        (trim (BidReq.message b)) (BidReq.deliveryTime b) Bid.pending]>
         (bids s))
| bids_accepted u k bk job :
    bids s !! k = Some bk →
    jobs s !! Bid.jobId bk = Some job →
    Job.createdBy job = user_id u →
    Job.status job = Job.open →
    Bid.freelancerId bk ∈ users s →
    bids_change s (AcceptBid u k)
      (Bid_rejectOthers (Bid.jobId bk) k
         (<[k := Bid.set_status Bid.accepted bk]> (bids s)))
| bids_accepted_alone u k bk job :
    bids s !! k = Some bk →
    jobs s !! Bid.jobId bk = Some job →
    Job.createdBy job = user_id u →
    Job.status job = Job.open →
    Bid.freelancerId bk ∉ users s →
    bids_change s (AcceptBid u k) (<[k := Bid.set_status Bid.accepted bk]> (bids s))
| bids_rejected u k bk job :
    bids s !! k = Some bk →
    jobs s !! Bid.jobId bk = Some job →
    Job.createdBy job = user_id u →
    bids_change s (RejectBid u k) (<[k := Bid.set_status Bid.rejected bk]> (bids s))
| bids_deleted u k bk :
    bids s !! k = Some bk →
    Bid.freelancerId bk = user_id u →
    Bid.status bk = Bid.pending →
    bids_change s (DeleteBid u k) (delete k (bids s))
| bids_cascaded u j job :
    role u = job_provider →
    jobs s !! j = Some job →
    Job.createdBy job = user_id u →
    bids_change s (DeleteJob u j) (Bid_deleteMany j (bids s)).

(** The ways in which a request changes the jobs. *)
Inductive jobs_change (hmac : string → string → string)
    (parse : string → option WebhookEvent) (env : Env) (s : Store)
    : Request → gmap nat Job.t → Prop :=
| jobs_unchanged r : jobs_change hmac parse env s r (jobs s)
| jobs_created u b :
    role u = job_provider →
    createJob_errors b = [] →
    job_enums_ok b = true →
    jobs_change hmac parse env s (CreateJob u b)
      (<[next_id s :=
           Job.mk (trim (JobReq.title b)) (trim (JobReq.description b))
             (JobReq.category b) (JobReq.budget b)
             (or_default (JobReq.budgetType b) "fixed")
             (default [] (JobReq.skills b)) (JobReq.duration b)
             (or_default (JobReq.experienceLevel b) "intermediate")
             (user_id u) Job.open None 0]> (jobs s))
| jobs_updated u id b job :
    role u = job_provider →
    jobs s !! id = Some job →
    Job.createdBy job = user_id u →
    updateJob_valid b = true →
    jobs_change hmac parse env s (UpdateJob u id b) (alter (apply_updates b) id (jobs s))
| jobs_deleted u id job :
    role u = job_provider →
    jobs s !! id = Some job →
    Job.createdBy job = user_id u →
    jobs_change hmac parse env s (DeleteJob u id) (delete id (jobs s))
| jobs_bid_placed u b job :
    role u = freelancer →
    jobs s !! BidReq.jobId b = Some job →
    Job.status job = Job.open →
    jobs_change hmac parse env s (PlaceBid u b)
      (alter (Job.inc_bidsCount 1) (BidReq.jobId b) (jobs s))
| jobs_assigned u k bk job :
    bids s !! k = Some bk →
    jobs s !! Bid.jobId bk = Some job →
    Job.createdBy job = user_id u →
    Job.status job = Job.open →
    Bid.freelancerId bk ∈ users s →
    jobs_change hmac parse env s (AcceptBid u k)
      (alter (Job.assign (Bid.freelancerId bk)) (Bid.jobId bk) (jobs s))
| jobs_bid_deleted u k bk :
    bids s !! k = Some bk →
    Bid.freelancerId bk = user_id u →
    Bid.status bk = Bid.pending →
    jobs_change hmac parse env s (DeleteBid u k)
      (alter (Job.inc_bidsCount (-1)) (Bid.jobId bk) (jobs s))
| jobs_settled_verify u oid pid key i p :
    Payment_findOne oid s = Some (i, p) →
    RAZORPAY_KEY_SECRET env = Some key →
    jobs_change hmac parse env s
      (VerifyPayment u
         (VerifyReq.mk (Some oid) (Some pid) (Some (expectedSignature hmac key oid pid))))
      (alter (Job.set_status Job.completed) (Payment.jobId p) (jobs s))
| jobs_settled_webhook body key e i p :
    or_else (RAZORPAY_WEBHOOK_SECRET env) (RAZORPAY_KEY_SECRET env) = Some key →
    parse body = Some (payment_captured e) →
    Payment_findOne (order_id e) s = Some (i, p) →
    jobs_change hmac parse env s (Webhook (Some (hmac key body)) body)
      (alter (Job.set_status Job.completed) (Payment.jobId p) (jobs s)).

(** The ways in which a request changes the payments. *)
Inductive payments_change (hmac : string → string → string)
    (parse : string → option WebhookEvent) (env : Env) (s : Store)
    : Request → list Payment.t → Prop :=
| payments_unchanged r : payments_change hmac parse env s r (payments s)
| payments_created u b oid job f :
    role u = job_provider →
    createOrder_errors b = [] →
    jobs s !! OrderReq.jobId b = Some job →
    Job.createdBy job = user_id u →
    Job.assignedTo job = Some f →
    f ∈ users s →
    oid ≠ "" →
    payments_change hmac parse env s (CreateOrder u b (Some oid))
      (payments s ++
       [Payment.mk (OrderReq.jobId b) (user_id u) f (OrderReq.amount b) oid None None
          Payment.created
          (or_default (OrderReq.description b)
             (String.app "Payment for job: " (Job.title job)))])
| payments_verify_failed u oid pid sig key i p :
    Payment_findOne oid s = Some (i, p) →
    RAZORPAY_KEY_SECRET env = Some key →
    sig ≠ expectedSignature hmac key oid pid →
    payments_change hmac parse env s
      (VerifyPayment u (VerifyReq.mk (Some oid) (Some pid) (Some sig)))
      (<[i := Payment.set_status Payment.failed p]> (payments s))
| payments_verify_paid u oid pid key i p :
    Payment_findOne oid s = Some (i, p) →
    RAZORPAY_KEY_SECRET env = Some key →
    payments_change hmac parse env s
      (VerifyPayment u
         (VerifyReq.mk (Some oid) (Some pid) (Some (expectedSignature hmac key oid pid))))
      (<[i := Payment.settle pid (expectedSignature hmac key oid pid) p]> (payments s))
| payments_webhook_captured body key e i p :
    or_else (RAZORPAY_WEBHOOK_SECRET env) (RAZORPAY_KEY_SECRET env) = Some key →
    parse body = Some (payment_captured e) →
    Payment_findOne (order_id e) s = Some (i, p) →
    payments_change hmac parse env s (Webhook (Some (hmac key body)) body)
      (<[i := Payment.capture (entity_id e) p]> (payments s))
| payments_webhook_failed body key e i p :
    or_else (RAZORPAY_WEBHOOK_SECRET env) (RAZORPAY_KEY_SECRET env) = Some key →
    parse body = Some (payment_failed e) →
    Payment_findOne (order_id e) s = Some (i, p) →
    payments_change hmac parse env s (Webhook (Some (hmac key body)) body)
      (<[i := Payment.set_status Payment.failed p]> (payments s)).

(** GET /api/payment/history: the query on the payments is by payer for a
    job provider and by payee for any other account. *)
Definition history_query (u : User) (p : Payment.t) : Prop :=
  match role u with
  | job_provider => Payment.payerId p = user_id u
  | freelancer => Payment.payeeId p = user_id u
  end.

#[global] Instance history_query_dec u p : Decision (history_query u p).
Proof. unfold history_query. destruct (role u); apply _. Defined.

(** The payments of the reply, sorted by [createdAt] from the newest to the
    oldest: the collection is in the order of creation. *)
Definition paymentHistory (u : User) (s : Store) : list Payment.t :=
  reverse (filter (history_query u) (payments s)).

(** What the schema and the routes require of a stored job. *)
Definition job_valid (j : Job.t) : Prop :=
  Job.title j ≠ ""
  ∧ Job.description j ≠ ""
  ∧ Job.category j ∈ categories
  ∧ (0 ≤ Job.budget j)%Z
  ∧ Job.budgetType j ∈ budgetTypes
  ∧ (∀ d, Job.duration j = Some d → d ∈ durations)
  ∧ Job.experienceLevel j ∈ experienceLevels.

(** The documents of the worked scenario. *)
Definition job_open : Job.t :=
  Job.mk "Landing page" "Build a landing page for a shop" "Web Development" 500
    "fixed" [] None "intermediate" 100 Job.open None 2.

Definition job_assigned : Job.t :=
  Job.mk "Landing page" "Build a landing page for a shop" "Web Development" 500
    "fixed" [] None "intermediate" 100 Job.in_progress (Some 101) 2.

Definition stored_bid_of_alice : Bid.t :=
  Bid.mk 101 0 400 "I can do this in a week" 7 Bid.pending.

Definition payment_created : Payment.t :=
  Payment.mk 0 100 101 500 "order_1" None None Payment.created
    "Payment for job: Landing page".

Definition payment_paid : Payment.t :=
  Payment.mk 0 100 101 500 "order_1" (Some "pay_1") (Some good_signature)
    Payment.paid "Payment for job: Landing page".

Definition bid_of_mallory : BidReq.t := BidReq.mk 0 300 "I would like to do it" 3.

(** The owner deleted job 0 after the order was created. *)
Definition store_orphaned : Store := run [DeleteJob owner 0] store_ordered.
Section Properties.

Variable hmac : string → string → string.
Variable parse : string → option WebhookEvent.
Variable env : Env.

(** * Theorems *)

(** ** Store operations *)

Lemma lookup_rejectOthers j keep (m : gmap nat Bid.t) i :
  Bid_rejectOthers j keep m !! i =
  (λ b, if decide (Bid.jobId b = j ∧ i ≠ keep)
        then Bid.set_status Bid.rejected b else b) <$> m !! i.
Proof.
  unfold Bid_rejectOthers. rewrite map_lookup_imap.
  by destruct (m !! i).
Qed.

Lemma lookup_deleteMany_Some j (m : gmap nat Bid.t) i b :
  Bid_deleteMany j m !! i = Some b ↔ m !! i = Some b ∧ Bid.jobId b ≠ j.
Proof. unfold Bid_deleteMany. by rewrite map_lookup_filter_Some. Qed.

Lemma Bid_exists_lookup f j (m : gmap nat Bid.t) i b :
  m !! i = Some b → Bid.freelancerId b = f → Bid.jobId b = j → Bid_exists f j m.
Proof. intros Hb Hf Hj. exists i, b. by repeat split. Qed.

(** ** Accepting a bid *)

(** C1. For a bid [bid] on a job [job]: when the caller created the job, the
    job is open and the bid's freelancer is a registered account, accepting
    the bid answers 200, leaves the bid accepted, the job in progress and
    assigned to the bid's freelancer, every other bid on the job rejected,
    and the bids on other jobs as they were. When the job is not open, the
    job's creator gets the 400 reply "Job is no longer open" (the conflict
    error of the routes), and whoever calls, the store is left as it was. *)
Theorem acceptBid_spec (s : Store) (u : User) (id : nat) (bid : Bid.t) (job : Job.t) :
  bids s !! id = Some bid →
  jobs s !! Bid.jobId bid = Some job →
  (Job.createdBy job = user_id u → Job.status job = Job.open →
   Bid.freelancerId bid ∈ users s →
   let s' := (acceptBid u id s).1 in
   (acceptBid u id s).2 = Json 200 "Bid accepted successfully"
   ∧ bids s' !! id = Some (Bid.set_status Bid.accepted bid)
   ∧ (∃ job', jobs s' !! Bid.jobId bid = Some job'
        ∧ Job.status job' = Job.in_progress
        ∧ Job.assignedTo job' = Some (Bid.freelancerId bid))
   ∧ (∀ i b, i ≠ id → bids s !! i = Some b → Bid.jobId b = Bid.jobId bid →
        bids s' !! i = Some (Bid.set_status Bid.rejected b))
   ∧ (∀ i b, bids s !! i = Some b → Bid.jobId b ≠ Bid.jobId bid →
        bids s' !! i = Some b))
  ∧ (Job.createdBy job = user_id u → Job.status job ≠ Job.open →
     acceptBid u id s = (s, Json 400 "Job is no longer open"))
  ∧ (Job.status job ≠ Job.open → ∀ caller, (acceptBid caller id s).1 = s).
Proof.
  intros Hbid Hjob. split_and!.
  - intros Hown Hopen Hreg. unfold acceptBid, Job_findById.
    rewrite Hbid, Hjob.
    rewrite decide_False by (by intros []).
    rewrite decide_False by (by intros []).
    unfold populate_user. rewrite decide_True by done. simpl.
    split_and!.
    + done.
    + rewrite lookup_rejectOthers, lookup_insert_eq. simpl.
      rewrite decide_False; [done | by intros [_ []]].
    + exists (Job.assign (Bid.freelancerId bid) job).
      by rewrite lookup_alter_eq, Hjob.
    + intros i b Hi Hb Hj.
      rewrite lookup_rejectOthers, lookup_insert_ne, Hb by done. simpl.
      by rewrite decide_True.
    + intros i b Hb Hj.
      rewrite lookup_rejectOthers, lookup_insert_ne, Hb by congruence. simpl.
      rewrite decide_False; [done | by intros [? _]].
  - intros Hown Hclosed. unfold acceptBid, Job_findById.
    rewrite Hbid, Hjob.
    rewrite decide_False by (by intros []).
    by rewrite decide_True.
  - intros Hclosed caller. unfold acceptBid, Job_findById.
    rewrite Hbid, Hjob.
    destruct (decide (Job.createdBy job ≠ user_id caller)); [done|].
    by rewrite decide_True.
Qed.

(** ** Well-formed stores *)

Lemma well_formed_initial us : well_formed (initial us).
Proof.
  split; simpl.
  - intros id [? H]. by rewrite lookup_empty in H.
  - intros id [? H]. by rewrite lookup_empty in H.
  - intros id b H. by rewrite lookup_empty in H.
  - intros i1 i2 b1 b2 H. by rewrite lookup_empty in H.
  - intros p H. by apply elem_of_nil in H.
Qed.

(** An update of one job that keeps an assignment keeps the store well
    formed. *)
Lemma well_formed_job_update s id f :
  well_formed s →
  (∀ j, is_Some (Job.assignedTo j) → is_Some (Job.assignedTo (f j))) →
  well_formed (Job_findByIdAndUpdate id f s).
Proof.
  intros [Hj Hb Hbj Hu Hp] Hf. split; simpl.
  - intros i Hi. apply Hj. by rewrite lookup_alter_is_Some in Hi.
  - done.
  - intros i b Hi. rewrite lookup_alter_is_Some. by eapply Hbj.
  - done.
  - intros p Hin. destruct (Hp p Hin) as [Hlt Has]. split; [done|].
    intros j. rewrite lookup_alter_Some.
    intros [(_ & j0 & Hj0 & ->) | [_ Hj0]]; eauto.
Qed.

(** Bids that are dropped, or changed in their status only. *)
Lemma well_formed_bids_update s bs :
  well_formed s →
  (∀ i b', bs !! i = Some b' →
     ∃ b, bids s !! i = Some b ∧ Bid.freelancerId b' = Bid.freelancerId b
          ∧ Bid.jobId b' = Bid.jobId b) →
  well_formed (with_bids bs s).
Proof.
  intros [Hj Hb Hbj Hu Hp] Hbs. split; simpl; try done.
  - intros i [b' Hi]. destruct (Hbs i b' Hi) as (b & Hb0 & _). apply Hb. eauto.
  - intros i b' Hi. destruct (Hbs i b' Hi) as (b & Hb0 & _ & ->). by eapply Hbj.
  - intros i1 i2 b1 b2 H1 H2 Hf Hjb.
    destruct (Hbs i1 b1 H1) as (c1 & Hc1 & Hf1 & Hj1).
    destruct (Hbs i2 b2 H2) as (c2 & Hc2 & Hf2 & Hj2).
    apply (Hu i1 i2 c1 c2); congruence.
Qed.

(** Payments that are changed, but not in the job they pay for. *)
Lemma well_formed_payments_update s ps :
  well_formed s →
  (∀ p', p' ∈ ps → ∃ p, p ∈ payments s ∧ Payment.jobId p' = Payment.jobId p) →
  well_formed (with_payments ps s).
Proof.
  intros [Hj Hb Hbj Hu Hp] Hps. split; simpl; try done.
  intros p' Hin. destruct (Hps p' Hin) as (p & Hp0 & ->). by apply Hp.
Qed.

Lemma well_formed_payment_save s i p p' :
  well_formed s → payments s !! i = Some p → Payment.jobId p' = Payment.jobId p →
  well_formed (Payment_save i p' s).
Proof.
  intros Hwf Hi Hjob. apply well_formed_payments_update; [done|].
  intros q [k Hk]%list_elem_of_lookup.
  apply list_lookup_insert_Some in Hk as [(-> & -> & _) | [_ Hk]].
  - exists p. split; [|done]. apply list_elem_of_lookup. eauto.
  - exists q. split; [|done]. apply list_elem_of_lookup. eauto.
Qed.

Lemma Payment_findOne_Some oid s i p :
  Payment_findOne oid s = Some (i, p) →
  payments s !! i = Some p ∧ Payment.razorpayOrderId p = oid.
Proof. unfold Payment_findOne. rewrite list_find_Some. by intros (? & ? & _). Qed.

Lemma createJob_well_formed u b s : well_formed s → well_formed (createJob u b s).1.
Proof.
  intros Hwf. unfold createJob.
  destruct (negb (authorize job_provider u)); [done|].
  destruct (createJob_errors b); [|done].
  destruct (negb (job_enums_ok b)); [done|].
  destruct Hwf as [Hj Hb Hbj Hu Hp]. split; simpl.
  - intros id. rewrite lookup_insert_is_Some.
    intros [<- | [_ Hid]]; [lia|]. apply Hj in Hid. lia.
  - intros id Hid. apply Hb in Hid. lia.
  - intros id bid Hid. rewrite lookup_insert_is_Some. right.
    pose proof (Hbj id bid Hid) as Hjob. split; [|done].
    apply Hj in Hjob. lia.
  - done.
  - intros p Hin. destruct (Hp p Hin) as [Hlt Has]. split; [lia|].
    intros j. rewrite lookup_insert_ne by lia. apply Has.
Qed.

Lemma apply_updates_assignedTo b j :
  Job.assignedTo (apply_updates b j) = Job.assignedTo j.
Proof. done. Qed.

Lemma updateJob_well_formed u id b s : well_formed s → well_formed (updateJob u id b s).1.
Proof.
  intros Hwf. unfold updateJob.
  destruct (negb (authorize job_provider u)); [done|].
  destruct (Job_findById id s); [|done].
  destruct (decide _); [done|].
  destruct (negb (updateJob_valid b)); [done|].
  by apply well_formed_job_update.
Qed.

Lemma deleteJob_well_formed u id s : well_formed s → well_formed (deleteJob u id s).1.
Proof.
  intros Hwf. unfold deleteJob.
  destruct (negb (authorize job_provider u)); [done|].
  destruct (Job_findById id s); [|done].
  destruct (decide _); [done|].
  destruct Hwf as [Hj Hb Hbj Hu Hp]. split; simpl.
  - intros i [j Hi]. apply lookup_delete_Some in Hi as [_ Hi]. apply Hj. eauto.
  - intros i [bid Hi]. apply lookup_deleteMany_Some in Hi as [Hi _]. apply Hb. eauto.
  - intros i bid Hi. apply lookup_deleteMany_Some in Hi as [Hi Hne].
    rewrite lookup_delete_is_Some. split; [done|]. by eapply Hbj.
  - intros i1 i2 b1 b2 H1 H2.
    apply lookup_deleteMany_Some in H1 as [H1 _].
    apply lookup_deleteMany_Some in H2 as [H2 _]. by apply Hu.
  - intros p Hin. destruct (Hp p Hin) as [Hlt Has]. split; [done|].
    intros j Hjb. apply lookup_delete_Some in Hjb as [_ Hjb]. by apply Has.
Qed.

Lemma placeBid_well_formed u b s : well_formed s → well_formed (placeBid u b s).1.
Proof.
  intros Hwf. unfold placeBid.
  destruct (negb (authorize freelancer u)); [done|].
  destruct (placeBid_errors b); [|done].
  destruct (Job_findById (BidReq.jobId b) s) as [job|] eqn:Hjob; [|done].
  destruct (decide _); [done|].
  destruct (decide _) as [|Hnew]; [done|].
  unfold Bid_create. simpl. rewrite decide_False by done. simpl.
  apply well_formed_job_update; [|done].
  destruct Hwf as [Hj Hb Hbj Hu Hp]. split; simpl.
  - intros id Hid. apply Hj in Hid. lia.
  - intros id. rewrite lookup_insert_is_Some.
    intros [<- | [_ Hid]]; [lia|]. apply Hb in Hid. lia.
  - intros id bid. rewrite lookup_insert_Some.
    intros [[_ <-] | [_ Hid]]; simpl; [by eexists | by eapply Hbj].
  - intros i1 i2 b1 b2. rewrite !lookup_insert_Some.
    intros [[<- <-] | [Hn1 H1]] [[<- <-] | [Hn2 H2]]; simpl; intros Hf Hjb.
    + done.
    + destruct Hnew. by eapply Bid_exists_lookup.
    + destruct Hnew. by eapply Bid_exists_lookup.
    + by eapply Hu.
  - intros p Hin. destruct (Hp p Hin) as [Hlt Has]. split; [lia | done].
Qed.

Lemma well_formed_bid_status s id bid st :
  well_formed s → bids s !! id = Some bid →
  well_formed (with_bids (<[id := Bid.set_status st bid]> (bids s)) s).
Proof.
  intros Hwf Hbid. apply well_formed_bids_update; [done|].
  intros i b'. rewrite lookup_insert_Some.
  intros [[<- <-] | [_ Hi]]; eauto.
Qed.

Lemma acceptBid_well_formed u id s : well_formed s → well_formed (acceptBid u id s).1.
Proof.
  intros Hwf. unfold acceptBid.
  destruct (bids s !! id) as [bid|] eqn:Hbid; [|done].
  destruct (Job_findById (Bid.jobId bid) s); [|done].
  destruct (decide _); [done|].
  destruct (decide _); [done|].
  pose proof (well_formed_bid_status s id bid Bid.accepted Hwf Hbid) as Hwf1.
  destruct (populate_user (Bid.freelancerId bid) s) as [f|]; [|done]. simpl.
  apply well_formed_bids_update.
  { apply well_formed_job_update; [done|]. intros j _. by eexists. }
  intros i b'. rewrite lookup_rejectOthers.
  destruct (_ !! i) as [b0|] eqn:Hb0; simpl; [|done]. intros [= <-].
  exists b0. by destruct (decide _).
Qed.

Lemma rejectBid_well_formed u id s : well_formed s → well_formed (rejectBid u id s).1.
Proof.
  intros Hwf. unfold rejectBid.
  destruct (bids s !! id) as [bid|] eqn:Hbid; [|done].
  destruct (Job_findById (Bid.jobId bid) s); [|done].
  destruct (decide _); [done|].
  by apply well_formed_bid_status.
Qed.

Lemma deleteBid_well_formed u id s : well_formed s → well_formed (deleteBid u id s).1.
Proof.
  intros Hwf. unfold deleteBid.
  destruct (bids s !! id) as [bid|] eqn:Hbid; [|done].
  destruct (decide _); [done|].
  destruct (decide _); [done|]. simpl.
  apply well_formed_job_update.
  - apply well_formed_bids_update; [done|].
    intros i b' [_ Hi]%lookup_delete_Some. eauto.
  - intros j Hj. by destruct j.
Qed.

Lemma createOrder_well_formed u b order s :
  well_formed s → well_formed (createOrder u b order s).1.
Proof.
  intros Hwf. unfold createOrder.
  destruct (negb (authorize job_provider u)); [done|].
  destruct (createOrder_errors b); [|done].
  destruct (Job_findById (OrderReq.jobId b) s) as [job|] eqn:Hjob; [|done].
  destruct (decide _); [done|].
  destruct (Job.assignedTo job) as [f0|] eqn:Has; [|done]. simpl.
  destruct (populate_user f0 s) as [f|]; [|done].
  destruct order as [oid|]; [|done].
  destruct (decide _); [done|].
  destruct Hwf as [Hj Hb Hbj Hu Hp]. split; simpl; try done.
  intros p [Hin | ->%list_elem_of_singleton]%elem_of_app; [by apply Hp|].
  simpl. unfold Job_findById in Hjob. split.
  - apply Hj. eauto.
  - intros j Hj0. rewrite Hjob in Hj0. injection Hj0 as <-. rewrite Has. eauto.
Qed.

Lemma handlePaymentCaptured_well_formed e s :
  well_formed s → well_formed (handlePaymentCaptured e s).
Proof.
  intros Hwf. unfold handlePaymentCaptured.
  destruct (Payment_findOne (order_id e) s) as [[i p]|] eqn:Hfind; [|done].
  apply Payment_findOne_Some in Hfind as [Hi _].
  apply well_formed_job_update; [|done].
  by eapply well_formed_payment_save.
Qed.

Lemma handlePaymentFailed_well_formed e s :
  well_formed s → well_formed (handlePaymentFailed e s).
Proof.
  intros Hwf. unfold handlePaymentFailed.
  destruct (Payment_findOne (order_id e) s) as [[i p]|] eqn:Hfind; [|done].
  apply Payment_findOne_Some in Hfind as [Hi _].
  by eapply well_formed_payment_save.
Qed.

Lemma verifyPayment_well_formed u b s :
  well_formed s → well_formed (verifyPayment hmac env u b s).1.
Proof.
  intros Hwf. unfold verifyPayment.
  destruct (VerifyReq.razorpay_order_id b) as [oid|]; [|done].
  destruct (VerifyReq.razorpay_payment_id b) as [pid|]; [|done].
  destruct (VerifyReq.razorpay_signature b) as [sig|]; [|done].
  destruct (Payment_findOne oid s) as [[i p]|] eqn:Hfind; [|done].
  apply Payment_findOne_Some in Hfind as [Hi _].
  destruct (RAZORPAY_KEY_SECRET env); [|done].
  destruct (decide _); simpl.
  { by eapply well_formed_payment_save. }
  assert (well_formed (Payment_save i (Payment.settle pid sig p) s)) as Hwf1
    by by eapply well_formed_payment_save.
  destruct (Job_findById (Payment.jobId p) s); [|done]. simpl.
  by apply well_formed_job_update.
Qed.

Lemma webhook_well_formed sig body s :
  well_formed s → well_formed (webhook hmac parse env sig body s).1.
Proof.
  intros Hwf. unfold webhook.
  destruct (or_else _ _); [|done].
  destruct (decide _); [done|].
  destruct (parse body) as [[e|e|name]|]; simpl; try done.
  - by apply handlePaymentCaptured_well_formed.
  - by apply handlePaymentFailed_well_formed.
Qed.

Lemma handle_well_formed r s :
  well_formed s → well_formed (handle hmac parse env r s).1.
Proof.
  destruct r; simpl;
    eauto using createJob_well_formed, updateJob_well_formed, deleteJob_well_formed,
      placeBid_well_formed, acceptBid_well_formed, rejectBid_well_formed,
      deleteBid_well_formed, createOrder_well_formed, verifyPayment_well_formed,
      webhook_well_formed.
Qed.

Lemma reachable_well_formed s : reachable hmac parse env s → well_formed s.
Proof.
  induction 1; [apply well_formed_initial | by apply handle_well_formed].
Qed.

(** ** The assignment invariant of jobs *)

Lemma jobs_consistent_job_update s id f :
  jobs_consistent s →
  (∀ j, jobs s !! id = Some j → job_invariant j → job_invariant (f j)) →
  jobs_consistent (Job_findByIdAndUpdate id f s).
Proof.
  unfold jobs_consistent. rewrite !map_Forall_lookup. simpl.
  intros Hs Hf i j. rewrite lookup_alter_Some.
  intros [(-> & j0 & Hj0 & ->) | [_ Hj0]]; eauto.
Qed.

Lemma job_invariant_inc_bidsCount d j :
  job_invariant j → job_invariant (Job.inc_bidsCount d j).
Proof. done. Qed.

Lemma job_invariant_assign f j : job_invariant (Job.assign f j).
Proof. unfold job_invariant. simpl. split; eauto. Qed.

Lemma job_invariant_completed j :
  is_Some (Job.assignedTo j) → job_invariant (Job.set_status Job.completed j).
Proof. unfold job_invariant. simpl. intros. split; eauto. Qed.

(** Settling the job of a stored payment keeps the invariant: the job was
    assigned when the payment was created, and an assignment is never
    withdrawn. *)
Lemma jobs_consistent_settled s s1 i p :
  well_formed s → payments s !! i = Some p → jobs s1 = jobs s →
  jobs_consistent s → jobs_consistent (transitionOnSettlement (Payment.jobId p) s1).
Proof.
  intros Hwf Hi Hjobs Hs. apply jobs_consistent_job_update.
  - unfold jobs_consistent. by rewrite Hjobs.
  - rewrite Hjobs. intros j Hj _. apply job_invariant_completed.
    destruct (wf_payment_job s Hwf p) as [_ Has]; [|by eauto].
    apply list_elem_of_lookup. eauto.
Qed.

Lemma apply_updates_job_invariant b j :
  JobUpdate.status b = None → job_invariant j → job_invariant (apply_updates b j).
Proof. unfold job_invariant. simpl. by intros ->. Qed.

(** C2, as the code has it. In every store the system can be in, a request
    that is not an update of a job with a [status] field keeps the invariant
    "assignedTo is set if and only if the status is in_progress or
    completed" of all jobs: creating, deleting and otherwise updating a job,
    placing, accepting, rejecting and deleting a bid, creating an order,
    verifying a payment and handling a notification of the gateway. *)
Theorem job_invariant_preserved (r : Request) (s : Store) :
  reachable hmac parse env s →
  jobs_consistent s →
  ¬ is_status_override r →
  jobs_consistent (handle hmac parse env r s).1.
Proof.
  intros Hwf%reachable_well_formed Hs Hr.
  destruct r as [u b|u id b|u id|u b|u id|u id|u id|u b order|u b|sig body]; simpl.
  - unfold createJob.
    destruct (negb (authorize job_provider u)); [done|].
    destruct (createJob_errors b); [|done].
    destruct (negb (job_enums_ok b)); [done|]. simpl.
    unfold jobs_consistent. simpl. apply map_Forall_insert_2; [|done].
    unfold job_invariant. simpl. split; [by intros [? ?] | by intros [?|?]].
  - unfold updateJob.
    destruct (negb (authorize job_provider u)); [done|].
    destruct (Job_findById id s); [|done].
    destruct (decide _); [done|].
    destruct (negb (updateJob_valid b)); [done|]. simpl.
    apply jobs_consistent_job_update; [done|].
    intros j _. apply apply_updates_job_invariant.
    simpl in Hr. by destruct (JobUpdate.status b); [destruct Hr|].
  - unfold deleteJob.
    destruct (negb (authorize job_provider u)); [done|].
    destruct (Job_findById id s); [|done].
    destruct (decide _); [done|]. simpl.
    by apply map_Forall_delete.
  - unfold placeBid.
    destruct (negb (authorize freelancer u)); [done|].
    destruct (placeBid_errors b); [|done].
    destruct (Job_findById (BidReq.jobId b) s); [|done].
    destruct (decide _); [done|].
    destruct (decide _); [done|].
    destruct (Bid_create _ _ _); [|done]. simpl.
    apply jobs_consistent_job_update; [done|].
    intros j _. apply job_invariant_inc_bidsCount.
  - unfold acceptBid.
    destruct (bids s !! id) as [bid|]; [|done].
    destruct (Job_findById (Bid.jobId bid) s); [|done].
    destruct (decide _); [done|].
    destruct (decide _); [done|].
    destruct (populate_user (Bid.freelancerId bid) s) as [f|]; [|done]. simpl.
    apply (jobs_consistent_job_update
             (with_bids (<[id:=Bid.set_status Bid.accepted bid]> (bids s)) s));
      [done|].
    intros j _ _. apply job_invariant_assign.
  - unfold rejectBid.
    destruct (bids s !! id) as [bid|]; [|done].
    destruct (Job_findById (Bid.jobId bid) s); [|done].
    by destruct (decide _).
  - unfold deleteBid.
    destruct (bids s !! id) as [bid|]; [|done].
    destruct (decide _); [done|].
    destruct (decide _); [done|]. simpl.
    apply (jobs_consistent_job_update (with_bids (delete id (bids s)) s)); [done|].
    intros j _. apply job_invariant_inc_bidsCount.
  - unfold createOrder.
    destruct (negb (authorize job_provider u)); [done|].
    destruct (createOrder_errors b); [|done].
    destruct (Job_findById (OrderReq.jobId b) s) as [job|]; [|done].
    destruct (decide _); [done|].
    destruct (Job.assignedTo job ≫= _); [|done].
    destruct order as [oid|]; [|done].
    by destruct (decide _).
  - unfold verifyPayment.
    destruct (VerifyReq.razorpay_order_id b) as [oid|]; [|done].
    destruct (VerifyReq.razorpay_payment_id b) as [pid|]; [|done].
    destruct (VerifyReq.razorpay_signature b) as [sg|]; [|done].
    destruct (Payment_findOne oid s) as [[i p]|] eqn:Hfind; [|done].
    apply Payment_findOne_Some in Hfind as [Hi _].
    destruct (RAZORPAY_KEY_SECRET env); [|done].
    destruct (decide _); [done|].
    destruct (Job_findById (Payment.jobId p) s); [|done]. simpl.
    by eapply jobs_consistent_settled.
  - unfold webhook.
    destruct (or_else _ _); [|done].
    destruct (decide _); [done|].
    destruct (parse body) as [[e|e|name]|]; simpl; try done.
    + unfold handlePaymentCaptured.
      destruct (Payment_findOne (order_id e) s) as [[i p]|] eqn:Hfind; [|done].
      apply Payment_findOne_Some in Hfind as [Hi _].
      by eapply jobs_consistent_settled.
    + unfold handlePaymentFailed.
      by destruct (Payment_findOne (order_id e) s) as [[i p]|].
Qed.

(** ** Verifying a payment *)

Lemma Payment_save_lookup s i p p' :
  payments s !! i = Some p → payments (Payment_save i p' s) !! i = Some p'.
Proof.
  intros Hi. simpl. apply list_lookup_insert_eq. by eapply lookup_lt_Some.
Qed.

(** C3. Let [p] be the payment that the route finds for the order id of the
    request, at position [i]. When the supplied signature differs from the
    keyed digest of "orderId|transactionId" under the secret, the caller gets
    the 400 reply "Invalid payment signature" (the authentication error of
    the routes), the payment is stored with status failed and is otherwise
    as it was, and the other payments, the jobs and the bids are untouched:
    no job becomes completed. *)
Theorem verifyPayment_mismatch (s : Store) (u : User) (oid pid sig key : string)
    (i : nat) (p : Payment.t) :
  Payment_findOne oid s = Some (i, p) →
  RAZORPAY_KEY_SECRET env = Some key →
  sig ≠ expectedSignature hmac key oid pid →
  let out := verifyPayment hmac env u (VerifyReq.mk (Some oid) (Some pid) (Some sig)) s in
  out.2 = Json 400 "Invalid payment signature"
  ∧ out.1 = Payment_save i (Payment.set_status Payment.failed p) s
  ∧ (∃ p', payments out.1 !! i = Some p' ∧ Payment.status p' = Payment.failed)
  ∧ (∀ k, k ≠ i → payments out.1 !! k = payments s !! k)
  ∧ jobs out.1 = jobs s
  ∧ bids out.1 = bids s.
Proof.
  intros Hfind Hkey Hsig. unfold verifyPayment. simpl.
  rewrite Hfind, Hkey. rewrite decide_True by congruence. simpl.
  apply Payment_findOne_Some in Hfind as [Hi _].
  split_and!; try done.
  - eexists. split; [by eapply Payment_save_lookup | done].
  - intros k Hk. by apply list_lookup_insert_ne.
Qed.

(** C4. Let [p] be the payment that the route finds for the order id of the
    request, at position [i], and [job] its job. When the supplied signature
    equals the keyed digest of "orderId|transactionId" under the secret, the
    caller gets the 200 reply, the payment is stored with status paid, the
    transaction id and the signature of the request, and the job is stored
    with status completed; the other jobs are untouched. *)
Theorem verifyPayment_match (s : Store) (u : User) (oid pid sig key : string)
    (i : nat) (p : Payment.t) (job : Job.t) :
  Payment_findOne oid s = Some (i, p) →
  RAZORPAY_KEY_SECRET env = Some key →
  sig = expectedSignature hmac key oid pid →
  jobs s !! Payment.jobId p = Some job →
  let out := verifyPayment hmac env u (VerifyReq.mk (Some oid) (Some pid) (Some sig)) s in
  out.2 = Json 200 "Payment verified successfully"
  ∧ (∃ p', payments out.1 !! i = Some p'
       ∧ Payment.status p' = Payment.paid
       ∧ Payment.razorpayPaymentId p' = Some pid
       ∧ Payment.razorpaySignature p' = Some sig)
  ∧ (∃ job', jobs out.1 !! Payment.jobId p = Some job'
       ∧ Job.status job' = Job.completed)
  ∧ (∀ k, k ≠ Payment.jobId p → jobs out.1 !! k = jobs s !! k).
Proof.
  intros Hfind Hkey Hsig Hjob. unfold verifyPayment, Job_findById. simpl.
  rewrite Hfind, Hkey. rewrite decide_False by (intros H; by apply H).
  rewrite Hjob. simpl.
  apply Payment_findOne_Some in Hfind as [Hi _].
  split_and!.
  - done.
  - exists (Payment.settle pid sig p). split; [|done].
    apply list_lookup_insert_eq. by eapply lookup_lt_Some.
  - exists (Job.set_status Job.completed job). split; [|done].
    by rewrite lookup_alter_eq, Hjob.
  - intros k Hk. by apply lookup_alter_ne.
Qed.

(** ** Settlement is idempotent *)

Lemma Payment_findOne_save oid s i p p' :
  Payment_findOne oid s = Some (i, p) →
  Payment.razorpayOrderId p' = oid →
  Payment_findOne oid (Payment_save i p' s) = Some (i, p').
Proof.
  unfold Payment_findOne. simpl. intros Hfind Hoid.
  apply list_find_Some in Hfind as (Hi & _ & Hleast).
  apply list_find_insert_Some. right. left.
  split_and!; try done; try (by eapply lookup_lt_Some).
Qed.

Lemma Payment_findOne_settled oid s id :
  Payment_findOne oid (transitionOnSettlement id s) = Payment_findOne oid s.
Proof. done. Qed.

Lemma alter_set_completed_twice (m : gmap nat Job.t) id :
  alter (Job.set_status Job.completed) id (alter (Job.set_status Job.completed) id m)
  = alter (Job.set_status Job.completed) id m.
Proof.
  apply map_eq. intros k. destruct (decide (id = k)) as [->|Hne].
  - rewrite !lookup_alter_eq. by destruct (m !! k).
  - by rewrite !lookup_alter_ne.
Qed.

Lemma transitionOnSettlement_twice id s :
  transitionOnSettlement id (transitionOnSettlement id s) = transitionOnSettlement id s.
Proof.
  unfold transitionOnSettlement, Job_findByIdAndUpdate, with_jobs. simpl.
  by rewrite alter_set_completed_twice.
Qed.

Lemma transitionOnSettlement_status id s job :
  jobs s !! id = Some job →
  Job.status <$> jobs (transitionOnSettlement id s) !! id = Some Job.completed.
Proof. intros Hjob. simpl. by rewrite lookup_alter_eq, Hjob. Qed.

(** Saving a payment again and settling its job again changes nothing. *)
Lemma settle_again id i p s :
  transitionOnSettlement id
    (Payment_save i p (transitionOnSettlement id (Payment_save i p s)))
  = transitionOnSettlement id (Payment_save i p s).
Proof.
  unfold transitionOnSettlement, Job_findByIdAndUpdate, Payment_save,
    with_jobs, with_payments. simpl.
  by rewrite alter_set_completed_twice, list_insert_insert_eq.
Qed.

Lemma handlePaymentCaptured_twice e s :
  handlePaymentCaptured e (handlePaymentCaptured e s) = handlePaymentCaptured e s.
Proof.
  unfold handlePaymentCaptured at 2 3.
  destruct (Payment_findOne (order_id e) s) as [[i p]|] eqn:Hfind.
  - unfold handlePaymentCaptured.
    rewrite Payment_findOne_settled.
    rewrite (Payment_findOne_save _ _ _ _ (Payment.capture (entity_id e) p) Hfind).
    + apply (settle_again (Payment.jobId p) i (Payment.capture (entity_id e) p) s).
    + simpl. by apply Payment_findOne_Some in Hfind as [_ ?].
  - unfold handlePaymentCaptured. by rewrite Hfind.
Qed.

Lemma verifyPayment_twice u u' b s :
  (verifyPayment hmac env u b s).2 = Json 200 "Payment verified successfully" →
  verifyPayment hmac env u' b (verifyPayment hmac env u b s).1
  = verifyPayment hmac env u b s.
Proof.
  unfold verifyPayment at 1 3 4.
  destruct (VerifyReq.razorpay_order_id b) as [oid|] eqn:Hoid; [|done].
  destruct (VerifyReq.razorpay_payment_id b) as [pid|] eqn:Hpid; [|done].
  destruct (VerifyReq.razorpay_signature b) as [sg|] eqn:Hsg; [|done].
  destruct (Payment_findOne oid s) as [[i p]|] eqn:Hfind; [|done].
  destruct (RAZORPAY_KEY_SECRET env) as [key|] eqn:Hkey; [|done].
  destruct (decide _) as [|Hsig]; [done|].
  destruct (Job_findById (Payment.jobId p) s) as [job|] eqn:Hjob; [|done].
  intros _. simpl. unfold verifyPayment. rewrite Hoid, Hpid, Hsg.
  rewrite Payment_findOne_settled.
  rewrite (Payment_findOne_save _ _ _ _ (Payment.settle pid sg p) Hfind)
    by (simpl; by apply Payment_findOne_Some in Hfind as [_ ?]).
  rewrite Hkey. rewrite decide_False by done.
  unfold Job_findById in *. simpl. rewrite lookup_alter_eq, Hjob. simpl.
  f_equal.
  apply (settle_again (Payment.jobId p) i (Payment.settle pid sg p) s).
Qed.

Lemma jobs_settled_again id s s1 :
  jobs s1 = jobs (transitionOnSettlement id s) →
  jobs (transitionOnSettlement id s1) = jobs (transitionOnSettlement id s).
Proof.
  intros H. simpl. rewrite H. simpl. apply alter_set_completed_twice.
Qed.

Lemma webhook_twice sig body e s :
  parse body = Some (payment_captured e) →
  webhook hmac parse env sig body (webhook hmac parse env sig body s).1
  = webhook hmac parse env sig body s.
Proof.
  intros Hparse. unfold webhook.
  destruct (or_else _ _); [|done].
  destruct (decide _); [done|].
  rewrite Hparse. simpl. by rewrite handlePaymentCaptured_twice.
Qed.

(** A notification of capture for the order of a payment that was just
    verified leaves the jobs as they are. *)
Lemma captured_after_verified u b e s :
  (verifyPayment hmac env u b s).2 = Json 200 "Payment verified successfully" →
  VerifyReq.razorpay_order_id b = Some (order_id e) →
  jobs (handlePaymentCaptured e (verifyPayment hmac env u b s).1)
  = jobs (verifyPayment hmac env u b s).1.
Proof.
  unfold verifyPayment. intros Hok Hoid. rewrite Hoid in *.
  destruct (VerifyReq.razorpay_payment_id b) as [pid|]; [|done].
  destruct (VerifyReq.razorpay_signature b) as [sg|]; [|done].
  destruct (Payment_findOne (order_id e) s) as [[i p]|] eqn:Hfind; [|done].
  destruct (RAZORPAY_KEY_SECRET env) as [key|]; [|done].
  destruct (decide _) as [|Hsig]; [done|].
  destruct (Job_findById (Payment.jobId p) s) as [job|]; [|done].
  cbn [fst]. unfold handlePaymentCaptured.
  rewrite Payment_findOne_settled.
  rewrite (Payment_findOne_save _ _ _ _ (Payment.settle pid sg p) Hfind)
    by (simpl; by apply Payment_findOne_Some in Hfind as [_ ?]).
  by apply (jobs_settled_again (Payment.jobId p)
              (Payment_save i (Payment.settle pid sg p) s)).
Qed.

(** Verifying the payment of an order whose capture was just notified leaves
    the jobs as they are, whatever the signature. *)
Lemma verified_after_captured u b e s :
  VerifyReq.razorpay_order_id b = Some (order_id e) →
  jobs (verifyPayment hmac env u b (handlePaymentCaptured e s)).1
  = jobs (handlePaymentCaptured e s).
Proof.
  intros Hoid. unfold verifyPayment. rewrite Hoid.
  destruct (VerifyReq.razorpay_payment_id b) as [pid|]; [|done].
  destruct (VerifyReq.razorpay_signature b) as [sg|]; [|done].
  unfold handlePaymentCaptured.
  destruct (Payment_findOne (order_id e) s) as [[i p]|] eqn:Hfind.
  - rewrite Payment_findOne_settled.
    rewrite (Payment_findOne_save _ _ _ _ (Payment.capture (entity_id e) p) Hfind)
      by (simpl; by apply Payment_findOne_Some in Hfind as [_ ?]).
    destruct (RAZORPAY_KEY_SECRET env) as [key|]; [|done].
    destruct (decide _); [done|].
    destruct (Job_findById _ _); [|done].
    cbn [fst].
    by apply (jobs_settled_again (Payment.jobId p)
                (Payment_save i (Payment.capture (entity_id e) p) s)).
  - rewrite Hfind. destruct (RAZORPAY_KEY_SECRET env); done.
Qed.

(** C5. Settlement is idempotent. Marking a job completed twice gives the
    store that marking it once gives, with the job completed. A second
    verification of a payment that was verified gives the same store and the
    same reply as the first; a replayed notification of capture gives the
    same store and the same reply as the first delivery; and when the two
    routes follow each other for one order, the second leaves the jobs as
    the first left them. *)
Theorem settlement_idempotent (s : Store) (u u' : User) (b : VerifyReq.t)
    (e : Entity) (sig : option string) (body : string) :
  (∀ id, transitionOnSettlement id (transitionOnSettlement id s)
         = transitionOnSettlement id s
       ∧ (is_Some (jobs s !! id) →
          Job.status <$> jobs (transitionOnSettlement id s) !! id = Some Job.completed))
  ∧ ((verifyPayment hmac env u b s).2 = Json 200 "Payment verified successfully" →
     verifyPayment hmac env u' b (verifyPayment hmac env u b s).1
     = verifyPayment hmac env u b s)
  ∧ handlePaymentCaptured e (handlePaymentCaptured e s) = handlePaymentCaptured e s
  ∧ (parse body = Some (payment_captured e) →
     webhook hmac parse env sig body (webhook hmac parse env sig body s).1
     = webhook hmac parse env sig body s)
  ∧ ((verifyPayment hmac env u b s).2 = Json 200 "Payment verified successfully" →
     VerifyReq.razorpay_order_id b = Some (order_id e) →
     jobs (handlePaymentCaptured e (verifyPayment hmac env u b s).1)
     = jobs (verifyPayment hmac env u b s).1)
  ∧ (VerifyReq.razorpay_order_id b = Some (order_id e) →
     jobs (verifyPayment hmac env u' b (handlePaymentCaptured e s)).1
     = jobs (handlePaymentCaptured e s)).
Proof.
  split_and!.
  - intros id. split; [apply transitionOnSettlement_twice|].
    intros [job Hjob]. by eapply transitionOnSettlement_status.
  - apply verifyPayment_twice.
  - apply handlePaymentCaptured_twice.
  - apply webhook_twice.
  - apply captured_after_verified.
  - apply verified_after_captured.
Qed.

(** ** One bid per freelancer and job *)

Lemma Bid_create_duplicate id b (m : gmap nat Bid.t) :
  Bid_exists (Bid.freelancerId b) (Bid.jobId b) m → Bid_create id b m = None.
Proof. intros H. unfold Bid_create. by rewrite decide_True. Qed.

(** The unique index alone, without the check the route makes before it,
    keeps the bids unique per freelancer and job. *)
Lemma Bid_create_unique id b (m m' : gmap nat Bid.t) :
  unique_bids m → m !! id = None → Bid_create id b m = Some m' → unique_bids m'.
Proof.
  unfold Bid_create. intros Hu Hid. destruct (decide _) as [|Hnew]; [done|].
  intros [= <-] i1 i2 b1 b2. rewrite !lookup_insert_Some.
  intros [[<- <-] | [Hn1 H1]] [[<- <-] | [Hn2 H2]] Hf Hj.
  - done.
  - destruct Hnew. by eapply Bid_exists_lookup.
  - destruct Hnew. by eapply Bid_exists_lookup.
  - by eapply Hu.
Qed.

(** C6. In a store the system can be in, let a bid of the caller on the job
    of the request exist. Then placing a bid leaves the whole store as it
    was: no bid is created and [bidsCount] is unchanged. The job of the bid
    exists, and a valid request of a freelancer gets a 400 reply (the
    conflict error of the routes): "You have already bid on this job" while
    the job is open, "Job is not open for bidding" otherwise. The store
    itself refuses a second bid of the pair through its unique index,
    whatever the route checked, and no two bids of the store are of one
    freelancer on one job. *)
Theorem placeBid_duplicate (s : Store) (u : User) (b : BidReq.t) (id : nat) (bid : Bid.t) :
  reachable hmac parse env s →
  bids s !! id = Some bid →
  Bid.freelancerId bid = user_id u →
  Bid.jobId bid = BidReq.jobId b →
  (placeBid u b s).1 = s
  ∧ (∃ job, jobs s !! BidReq.jobId b = Some job
       ∧ (role u = freelancer → placeBid_errors b = [] →
          (placeBid u b s).2 =
            if decide (Job.status job = Job.open)
            then Json 400 "You have already bid on this job"
            else Json 400 "Job is not open for bidding"))
  ∧ (∀ id' b', Bid.freelancerId b' = user_id u → Bid.jobId b' = BidReq.jobId b →
       Bid_create id' b' (bids s) = None)
  ∧ unique_bids (bids s).
Proof.
  intros Hwf%reachable_well_formed Hbid Hf Hj.
  assert (Bid_exists (user_id u) (BidReq.jobId b) (bids s)) as Hex
    by by eapply Bid_exists_lookup.
  destruct (wf_bid_job s Hwf id bid Hbid) as [job Hjob]. rewrite Hj in Hjob.
  split_and!.
  - unfold placeBid.
    destruct (negb (authorize freelancer u)); [done|].
    destruct (placeBid_errors b); [|done].
    destruct (Job_findById (BidReq.jobId b) s); [|done].
    destruct (decide _); [done|].
    by rewrite decide_True.
  - exists job. split; [done|]. intros Hrole Herr.
    unfold placeBid, authorize, Job_findById.
    rewrite bool_decide_eq_true_2 by done. simpl.
    rewrite Herr, Hjob.
    destruct (decide (Job.status job = Job.open)) as [Hopen|Hclosed].
    + rewrite decide_False by (by intros []). by rewrite decide_True.
    + by rewrite decide_True.
  - intros id' b' Hf' Hj'. apply Bid_create_duplicate. by rewrite Hf', Hj'.
  - by apply wf_unique.
Qed.

(** ** Decided bids *)

Lemma deleteBid_decided u id bid s :
  bids s !! id = Some bid → decided bid →
  (deleteBid u id s).1 = s
  ∧ (Bid.freelancerId bid = user_id u →
     (deleteBid u id s).2
     = Json 400 "Cannot delete a bid that has been accepted or rejected").
Proof.
  intros Hbid Hdec. unfold deleteBid. rewrite Hbid. split.
  - destruct (decide _); [done|]. by rewrite decide_True.
  - intros Hown. rewrite decide_False by (by intros []). by rewrite decide_True.
Qed.

(** C7, as the code has it. In a store the system can be in, let a bid be
    accepted or rejected. Deleting it is refused and changes nothing. A
    request that neither accepts nor rejects a bid leaves the bid as it is,
    except that deleting its job removes the bid with the job. Accepting a
    bid changes the decided bid only when the job of the decided bid is open
    and owned by the caller: the bid becomes accepted when it is the one
    accepted, rejected when it is another bid on the same job. *)
Theorem decided_bid_stable (r : Request) (s : Store) (id : nat) (bid : Bid.t) :
  reachable hmac parse env s →
  bids s !! id = Some bid →
  decided bid →
  let s' := (handle hmac parse env r s).1 in
  (∀ u, (deleteBid u id s).1 = s
        ∧ (Bid.freelancerId bid = user_id u →
           (deleteBid u id s).2
           = Json 400 "Cannot delete a bid that has been accepted or rejected"))
  ∧ (¬ is_decision r →
     bids s' !! id = Some bid
     ∨ (bids s' !! id = None ∧ ∃ u, r = DeleteJob u (Bid.jobId bid)))
  ∧ (∀ u k, r = AcceptBid u k →
     bids s' !! id = Some bid
     ∨ (∃ job, jobs s !! Bid.jobId bid = Some job
          ∧ Job.status job = Job.open
          ∧ Job.createdBy job = user_id u
          ∧ bids s' !! id
            = Some (Bid.set_status (if decide (k = id) then Bid.accepted else Bid.rejected)
                      bid))).
Proof.
  intros Hwf%reachable_well_formed Hbid Hdec. split_and!.
  - intros u. by apply deleteBid_decided.
  - intros Hr.
    destruct r as [u b|u j b|u j|u b|u k|u k|u k|u b order|u b|sig body]; simpl in *.
    + left. unfold createJob.
      destruct (negb (authorize job_provider u)); [done|].
      destruct (createJob_errors b); [|done].
      by destruct (negb (job_enums_ok b)).
    + left. unfold updateJob.
      destruct (negb (authorize job_provider u)); [done|].
      destruct (Job_findById j s); [|done].
      destruct (decide _); [done|].
      by destruct (negb (updateJob_valid b)).
    + unfold deleteJob.
      destruct (negb (authorize job_provider u)); [by left|].
      destruct (Job_findById j s); [|by left].
      destruct (decide _); [by left|]. simpl.
      destruct (decide (Bid.jobId bid = j)) as [<-|Hne].
      * right. split; [|by eexists].
        destruct (Bid_deleteMany _ _ !! id) as [b'|] eqn:Hb'; [|done].
        apply lookup_deleteMany_Some in Hb' as [Hb' Hneq].
        rewrite Hbid in Hb'. by injection Hb' as <-.
      * left. by apply lookup_deleteMany_Some.
    + left. unfold placeBid.
      destruct (negb (authorize freelancer u)); [done|].
      destruct (placeBid_errors b); [|done].
      destruct (Job_findById (BidReq.jobId b) s); [|done].
      destruct (decide _); [done|].
      destruct (decide _) as [|Hnew]; [done|].
      unfold Bid_create. rewrite decide_False by done. simpl.
      rewrite lookup_insert_ne; [done|].
      assert (id < next_id s) by (apply (wf_bids_fresh s Hwf); eauto). lia.
    + by destruct Hr.
    + by destruct Hr.
    + left. unfold deleteBid.
      destruct (decide (k = id)) as [->|Hne].
      * rewrite Hbid. destruct (decide _); [done|]. by rewrite decide_True.
      * destruct (bids s !! k) as [bk|]; [|done].
        destruct (decide _); [done|].
        destruct (decide _); [done|]. simpl.
        by rewrite lookup_delete_ne.
    + left. unfold createOrder.
      destruct (negb (authorize job_provider u)); [done|].
      destruct (createOrder_errors b); [|done].
      destruct (Job_findById (OrderReq.jobId b) s) as [job|]; [|done].
      destruct (decide _); [done|].
      destruct (Job.assignedTo job ≫= _); [|done].
      destruct order as [oid|]; [|done].
      by destruct (decide _).
    + left. unfold verifyPayment.
      destruct (VerifyReq.razorpay_order_id b) as [oid|]; [|done].
      destruct (VerifyReq.razorpay_payment_id b) as [pid|]; [|done].
      destruct (VerifyReq.razorpay_signature b) as [sg|]; [|done].
      destruct (Payment_findOne oid s) as [[i p]|]; [|done].
      destruct (RAZORPAY_KEY_SECRET env); [|done].
      destruct (decide _); [done|].
      by destruct (Job_findById (Payment.jobId p) s).
    + left. unfold webhook.
      destruct (or_else _ _); [|done].
      destruct (decide _); [done|].
      destruct (parse body) as [[e|e|name]|]; simpl; try done.
      * unfold handlePaymentCaptured.
        by destruct (Payment_findOne (order_id e) s) as [[i p]|].
      * unfold handlePaymentFailed.
        by destruct (Payment_findOne (order_id e) s) as [[i p]|].
  - intros u k ->. simpl. unfold acceptBid.
    destruct (bids s !! k) as [bk|] eqn:Hbk; [|by left].
    destruct (Job_findById (Bid.jobId bk) s) as [job|] eqn:Hjob; [|by left].
    destruct (decide _) as [|Hown]; [by left|].
    destruct (decide _) as [|Hopen]; [by left|].
    apply dec_stable in Hown. apply dec_stable in Hopen.
    destruct (decide (k = id)) as [->|Hne].
    + rewrite Hbid in Hbk. injection Hbk as <-.
      right. exists job. split_and!; try done.
      destruct (populate_user (Bid.freelancerId bid) s); simpl.
      * rewrite lookup_rejectOthers, lookup_insert_eq. simpl.
        rewrite decide_False; [done | by intros [_ []]].
      * by rewrite lookup_insert_eq.
    + destruct (populate_user (Bid.freelancerId bk) s); simpl.
      * rewrite lookup_rejectOthers, lookup_insert_ne, Hbid by done. simpl.
        destruct (decide _) as [[Hsame _]|]; [|by left].
        right. exists job. rewrite Hsame. by split_and!.
      * left. by rewrite lookup_insert_ne.
Qed.

(** ** Paid payments *)

Lemma Payment_save_lookup_ne s i k p :
  k ≠ i → payments (Payment_save i p s) !! k = payments s !! k.
Proof. intros Hne. simpl. by apply list_lookup_insert_ne. Qed.

(** C8, as the code has it. A paid payment is never removed and its status
    never becomes created or refunded: after any request it is paid or
    failed. It is changed by the verify route and by notifications of the
    gateway only, and it becomes failed only when a verification for its
    order id carries a signature that does not match, or when the gateway
    notifies the failure of its order. *)
Theorem paid_payment_transitions (r : Request) (s : Store) (i : nat) (p : Payment.t) :
  payments s !! i = Some p →
  Payment.status p = Payment.paid →
  ∃ p', payments (handle hmac parse env r s).1 !! i = Some p'
    ∧ (Payment.status p' = Payment.paid ∨ Payment.status p' = Payment.failed)
    ∧ ((∀ u b, r ≠ VerifyPayment u b) → (∀ sig body, r ≠ Webhook sig body) → p' = p)
    ∧ (Payment.status p' = Payment.failed →
       (∃ u pid sig key,
          r = VerifyPayment u
                (VerifyReq.mk (Some (Payment.razorpayOrderId p)) (Some pid) (Some sig))
          ∧ RAZORPAY_KEY_SECRET env = Some key
          ∧ sig ≠ expectedSignature hmac key (Payment.razorpayOrderId p) pid)
       ∨ (∃ sig body e,
            r = Webhook sig body
            ∧ parse body = Some (payment_failed e)
            ∧ order_id e = Payment.razorpayOrderId p)).
Proof.
  intros Hi Hpaid.
  assert (∀ s1, payments s1 = payments s →
    ∃ p', payments s1 !! i = Some p'
      ∧ (Payment.status p' = Payment.paid ∨ Payment.status p' = Payment.failed)
      ∧ p' = p) as Hsame.
  { intros s1 ->. exists p. by split_and!; [|left|]. }
  assert (∀ s1, payments s1 = payments s →
    ∃ p', payments s1 !! i = Some p'
      ∧ (Payment.status p' = Payment.paid ∨ Payment.status p' = Payment.failed)
      ∧ ((∀ u b, r ≠ VerifyPayment u b) → (∀ sig body, r ≠ Webhook sig body) → p' = p)
      ∧ (Payment.status p' = Payment.failed →
         (∃ u pid sig key,
            r = VerifyPayment u
                  (VerifyReq.mk (Some (Payment.razorpayOrderId p)) (Some pid) (Some sig))
            ∧ RAZORPAY_KEY_SECRET env = Some key
            ∧ sig ≠ expectedSignature hmac key (Payment.razorpayOrderId p) pid)
         ∨ (∃ sig body e,
              r = Webhook sig body
              ∧ parse body = Some (payment_failed e)
              ∧ order_id e = Payment.razorpayOrderId p))) as Hkeep.
  { intros s1 Hs1. destruct (Hsame s1 Hs1) as (p' & Hp' & Hst & ->).
    exists p. split_and!; try done. intros Hf. congruence. }
  destruct r as [u b|u j b|u j|u b|u k|u k|u k|u b order|u b|sig body]; simpl.
  - apply Hkeep. unfold createJob.
    destruct (negb (authorize job_provider u)); [done|].
    destruct (createJob_errors b); [|done].
    by destruct (negb (job_enums_ok b)).
  - apply Hkeep. unfold updateJob.
    destruct (negb (authorize job_provider u)); [done|].
    destruct (Job_findById j s); [|done].
    destruct (decide _); [done|].
    by destruct (negb (updateJob_valid b)).
  - apply Hkeep. unfold deleteJob.
    destruct (negb (authorize job_provider u)); [done|].
    destruct (Job_findById j s); [|done].
    by destruct (decide _).
  - apply Hkeep. unfold placeBid.
    destruct (negb (authorize freelancer u)); [done|].
    destruct (placeBid_errors b); [|done].
    destruct (Job_findById (BidReq.jobId b) s); [|done].
    destruct (decide _); [done|].
    destruct (decide _); [done|].
    by destruct (Bid_create _ _ _).
  - apply Hkeep. unfold acceptBid.
    destruct (bids s !! k) as [bk|]; [|done].
    destruct (Job_findById (Bid.jobId bk) s); [|done].
    destruct (decide _); [done|].
    destruct (decide _); [done|].
    by destruct (populate_user _ _).
  - apply Hkeep. unfold rejectBid.
    destruct (bids s !! k) as [bk|]; [|done].
    destruct (Job_findById (Bid.jobId bk) s); [|done].
    by destruct (decide _).
  - apply Hkeep. unfold deleteBid.
    destruct (bids s !! k) as [bk|]; [|done].
    destruct (decide _); [done|].
    by destruct (decide _).
  - unfold createOrder.
    destruct (negb (authorize job_provider u)); [by apply Hkeep|].
    destruct (createOrder_errors b); [|by apply Hkeep].
    destruct (Job_findById (OrderReq.jobId b) s) as [job|]; [|by apply Hkeep].
    destruct (decide _); [by apply Hkeep|].
    destruct (Job.assignedTo job ≫= _); [|by apply Hkeep].
    destruct order as [oid|]; [|by apply Hkeep].
    destruct (decide _); [by apply Hkeep|]. simpl.
    exists p. split_and!; try done; [|by left|congruence].
    by apply lookup_app_l_Some.
  - unfold verifyPayment.
    destruct b as [[oid|] [pid|] [sg|]]; simpl; try by apply Hkeep.
    destruct (Payment_findOne oid s) as [[k q]|] eqn:Hfind; [|by apply Hkeep].
    apply Payment_findOne_Some in Hfind as [Hk Hoid].
    destruct (RAZORPAY_KEY_SECRET env) as [key|] eqn:Hkey; [|by apply Hkeep].
    assert (k = i → q = p) as Hq by (intros ->; congruence).
    destruct (decide _) as [Hsig|Hsig].
    + cbn [fst]. destruct (decide (k = i)) as [->|Hne].
      * rewrite (Payment_save_lookup _ _ q) by done.
        eexists. split_and!; [done | by right | by intros H; destruct (H _ _ eq_refl) |].
        intros _. left. exists u, pid, sg, key.
        rewrite <- (Hq eq_refl), Hoid. split_and!; [done | done | congruence].
      * rewrite Payment_save_lookup_ne by done. exists p.
        split_and!; try done; [by left | congruence].
    + assert (payments (Payment_save k (Payment.settle pid sg q) s) !! i
              = Some (if decide (k = i) then Payment.settle pid sg q else p)) as Hsave.
      { destruct (decide (k = i)) as [->|Hne].
        - by apply (Payment_save_lookup _ _ q).
        - by rewrite Payment_save_lookup_ne. }
      destruct (Job_findById (Payment.jobId q) s); cbn [fst];
        (eexists; split; [exact Hsave|]);
        (destruct (decide (k = i)); simpl;
         split_and!; [by left | by intros H; destruct (H _ _ eq_refl) | congruence
                     | by left | by intros H; destruct (H _ _ eq_refl) | congruence]).
  - unfold webhook.
    destruct (or_else _ _); [|by apply Hkeep].
    destruct (decide _); [by apply Hkeep|].
    destruct (parse body) as [[e|e|name]|] eqn:Hparse; cbn [fst];
      try by apply Hkeep.
    + unfold handlePaymentCaptured.
      destruct (Payment_findOne (order_id e) s) as [[k q]|] eqn:Hfind; [|by apply Hkeep].
      apply Payment_findOne_Some in Hfind as [Hk Hoid].
      destruct (decide (k = i)) as [->|Hne].
      * exists (Payment.capture (entity_id e) q).
        split_and!; [by apply (Payment_save_lookup _ _ q) | by left
                    | by intros _ H; destruct (H _ _ eq_refl) | done].
      * exists p.
        split_and!; [simpl; by rewrite list_lookup_insert_ne | by left | done
                    | congruence].
    + unfold handlePaymentFailed.
      destruct (Payment_findOne (order_id e) s) as [[k q]|] eqn:Hfind; [|by apply Hkeep].
      apply Payment_findOne_Some in Hfind as [Hk Hoid].
      destruct (decide (k = i)) as [->|Hne].
      * exists (Payment.set_status Payment.failed q).
        split_and!; [by apply (Payment_save_lookup _ _ q) | by right
                    | by intros _ H; destruct (H _ _ eq_refl) |].
        intros _. right. exists sig, body, e. split_and!; [done | done | congruence].
      * exists p. rewrite Payment_save_lookup_ne by done.
        split_and!; try done; [by left | congruence].
Qed.

(** ** The signature check *)

Lemma flip_ascii_neq k a : k < 8 → flip_ascii k a ≠ a.
Proof.
  intros Hk. destruct a as [[] [] [] [] [] [] [] []];
    do 8 (destruct k as [|k]; [by vm_compute|]); lia.
Qed.

Lemma flip_bit_neq i k x : i < String.length x → k < 8 → flip_bit i k x ≠ x.
Proof.
  revert i. induction x as [|a x IH]; intros i Hi Hk; simpl in *; [lia|].
  destruct i as [|i].
  - intros [= H]. by apply (flip_ascii_neq k a).
  - intros [= H]. apply (IH i); [lia | done | done].
Qed.

(** What the verify route answers once the payment is found and the secret
    is configured. *)
Lemma verifyPayment_found u oid pid sig key i p s :
  Payment_findOne oid s = Some (i, p) →
  RAZORPAY_KEY_SECRET env = Some key →
  verifyPayment hmac env u (VerifyReq.mk (Some oid) (Some pid) (Some sig)) s
  = if decide (expectedSignature hmac key oid pid ≠ sig)
    then (Payment_save i (Payment.set_status Payment.failed p) s,
          Json 400 "Invalid payment signature")
    else match jobs s !! Payment.jobId p with
         | None => (Payment_save i (Payment.settle pid sig p) s,
                    Json 500 "Server error verifying payment")
         | Some _ => (transitionOnSettlement (Payment.jobId p)
                        (Payment_save i (Payment.settle pid sig p) s),
                      Json 200 "Payment verified successfully")
         end.
Proof. intros Hfind Hkey. unfold verifyPayment. simpl. by rewrite Hfind, Hkey. Qed.

Lemma verifyPayment_rejects_iff u oid pid sig key i p s :
  Payment_findOne oid s = Some (i, p) →
  RAZORPAY_KEY_SECRET env = Some key →
  rejects (verifyPayment hmac env u (VerifyReq.mk (Some oid) (Some pid) (Some sig)) s).2
  ↔ sig ≠ expectedSignature hmac key oid pid.
Proof.
  intros Hfind Hkey. rewrite (verifyPayment_found _ _ _ _ _ _ _ _ Hfind Hkey).
  unfold rejects. destruct (decide _) as [Hne|Heq]; simpl.
  - split; [congruence | done].
  - apply dec_stable in Heq. split; [|congruence].
    by destruct (jobs s !! Payment.jobId p).
Qed.

(** ** The caller of the verify route *)

(** C10. The verify route does not look at its caller: two callers with the
    same request on the same store get the same reply and leave the same
    store. In particular a caller who is neither the payer, nor the payee,
    nor the owner of the job, and who supplies the matching signature, gets
    the payment paid and the job completed. *)
Theorem verifyPayment_any_caller (s : Store) (b : VerifyReq.t) :
  (∀ u1 u2, verifyPayment hmac env u1 b s = verifyPayment hmac env u2 b s)
  ∧ (∀ u oid pid key i p job,
       b = VerifyReq.mk (Some oid) (Some pid) (Some (expectedSignature hmac key oid pid)) →
       Payment_findOne oid s = Some (i, p) →
       RAZORPAY_KEY_SECRET env = Some key →
       jobs s !! Payment.jobId p = Some job →
       user_id u ≠ Payment.payerId p →
       user_id u ≠ Payment.payeeId p →
       user_id u ≠ Job.createdBy job →
       let out := verifyPayment hmac env u b s in
       out.2 = Json 200 "Payment verified successfully"
       ∧ Payment.status <$> payments out.1 !! i = Some Payment.paid
       ∧ Job.status <$> jobs out.1 !! Payment.jobId p = Some Job.completed).
Proof.
  split; [done|].
  intros u oid pid key i p job -> Hfind Hkey Hjob _ _ _.
  rewrite (verifyPayment_found _ _ _ _ _ _ _ _ Hfind Hkey).
  rewrite decide_False by (intros H; by apply H). rewrite Hjob. simpl.
  apply Payment_findOne_Some in Hfind as [Hi _].
  split_and!; [done | |].
  - rewrite list_lookup_insert_eq; [done | by eapply lookup_lt_Some].
  - by rewrite lookup_alter_eq, Hjob.
Qed.

(** ** Counting the bids of a job *)

Lemma bid_count_insert_fresh j i b (m : gmap nat Bid.t) :
  m !! i = None →
  bid_count j (<[i:=b]> m)
  = if decide (Bid.jobId b = j) then S (bid_count j m) else bid_count j m.
Proof.
  intros Hi. unfold bid_count. destruct (decide _) as [Hj|Hj].
  - rewrite map_filter_insert_True by done.
    apply map_size_insert_None. by apply map_lookup_filter_None_2; left.
  - rewrite map_filter_insert_not' by (simpl; try done; intros ? ?; congruence).
    done.
Qed.

Lemma bid_count_delete j i b (m : gmap nat Bid.t) :
  m !! i = Some b →
  bid_count j (delete i m)
  = if decide (Bid.jobId b = j) then pred (bid_count j m) else bid_count j m.
Proof.
  intros Hi. unfold bid_count. rewrite map_filter_delete.
  destruct (decide _) as [Hj|Hj].
  - apply map_size_delete_Some. exists b. by apply map_lookup_filter_Some.
  - apply map_size_delete_None. apply map_lookup_filter_None_2. right.
    intros b' Hb'. simpl. congruence.
Qed.

(** Bids changed in their status only count as before. *)
Lemma bid_count_same_jobs j (m m' : gmap nat Bid.t) :
  (∀ i, Bid.jobId <$> m' !! i = Bid.jobId <$> m !! i) →
  bid_count j m' = bid_count j m.
Proof.
  intros Hsame. unfold bid_count.
  rewrite <- !(size_dom (D := gset nat)). f_equal.
  apply set_eq. intros i. rewrite !elem_of_dom. unfold is_Some.
  setoid_rewrite map_lookup_filter_Some. simpl.
  specialize (Hsame i).
  destruct (m' !! i) as [b'|], (m !! i) as [b|]; simplify_eq/=.
  - split; intros (x & [= <-] & Hx); eexists; (split; [done | congruence]).
  - split; by intros (x & Hx & _).
Qed.

Lemma bid_count_none j (m : gmap nat Bid.t) :
  (∀ i b, m !! i = Some b → Bid.jobId b ≠ j) → bid_count j m = 0.
Proof.
  intros Hnone. unfold bid_count. apply map_size_empty_iff.
  apply map_eq. intros i. rewrite lookup_empty.
  apply map_lookup_filter_None_2.
  destruct (m !! i) as [b|] eqn:Hb; [right|by left].
  intros b' [= <-]. simpl. by eapply Hnone.
Qed.

Lemma bid_count_deleteMany j j' (m : gmap nat Bid.t) :
  j ≠ j' → bid_count j (Bid_deleteMany j' m) = bid_count j m.
Proof.
  intros Hne. unfold bid_count, Bid_deleteMany. rewrite map_filter_filter.
  f_equal. apply map_filter_ext. intros i b _. simpl. split; [by intros []|].
  intros <-. split; [done | congruence].
Qed.

Lemma bid_count_pos j i b (m : gmap nat Bid.t) :
  m !! i = Some b → Bid.jobId b = j → 0 < bid_count j m.
Proof.
  intros Hi Hj. unfold bid_count.
  destruct (size (filter _ m)) eqn:Hsize; [|lia].
  apply map_size_empty_iff in Hsize.
  assert (filter (λ ib, Bid.jobId ib.2 = j) m !! i = Some b) as Hf
    by by apply map_lookup_filter_Some.
  by rewrite Hsize, lookup_empty in Hf.
Qed.

(** The counters stay right when the jobs keep their counters and the bids
    their jobs. *)
Lemma counts_consistent_same s s' :
  counts_consistent s →
  (∀ id job', jobs s' !! id = Some job' →
     ∃ job, jobs s !! id = Some job ∧ Job.bidsCount job' = Job.bidsCount job) →
  (∀ i, Bid.jobId <$> bids s' !! i = Bid.jobId <$> bids s !! i) →
  counts_consistent s'.
Proof.
  intros Hs Hjobs Hbids id job' Hjob'.
  destruct (Hjobs id job' Hjob') as (job & Hjob & ->).
  rewrite (bid_count_same_jobs id (bids s) (bids s')) by done.
  by apply Hs.
Qed.

Lemma jobs_update_counter s id f :
  (∀ j, Job.bidsCount (f j) = Job.bidsCount j) →
  ∀ k job', jobs (Job_findByIdAndUpdate id f s) !! k = Some job' →
    ∃ job, jobs s !! k = Some job ∧ Job.bidsCount job' = Job.bidsCount job.
Proof.
  intros Hf k job'. simpl. rewrite lookup_alter_Some.
  intros [(-> & j0 & Hj0 & ->) | [_ Hj0]]; eauto.
Qed.

Lemma handle_counts_consistent r s :
  well_formed s → counts_consistent s →
  counts_consistent (handle hmac parse env r s).1.
Proof.
  intros Hwf Hs.
  destruct r as [u b|u j b|u j|u b|u k|u k|u k|u b order|u b|sig body]; simpl.
  - unfold createJob.
    destruct (negb (authorize job_provider u)); [done|].
    destruct (createJob_errors b); [|done].
    destruct (negb (job_enums_ok b)); [done|]. simpl.
    intros id job. simpl. rewrite lookup_insert_Some.
    intros [[<- <-] | [_ Hjob]]; [|by apply Hs]. simpl.
    rewrite bid_count_none; [done|].
    intros i bid Hbid Hj.
    pose proof (wf_bid_job s Hwf i bid Hbid) as Hjob. rewrite Hj in Hjob.
    apply (wf_jobs_fresh s Hwf) in Hjob. lia.
  - unfold updateJob.
    destruct (negb (authorize job_provider u)); [done|].
    destruct (Job_findById j s); [|done].
    destruct (decide _); [done|].
    destruct (negb (updateJob_valid b)); [done|]. simpl.
    apply (counts_consistent_same s); [done | | done].
    by apply jobs_update_counter.
  - unfold deleteJob.
    destruct (negb (authorize job_provider u)); [done|].
    destruct (Job_findById j s); [|done].
    destruct (decide _); [done|]. simpl.
    intros id job. simpl. rewrite lookup_delete_Some. intros [Hne Hjob].
    rewrite bid_count_deleteMany by done. by apply Hs.
  - unfold placeBid.
    destruct (negb (authorize freelancer u)); [done|].
    destruct (placeBid_errors b); [|done].
    destruct (Job_findById (BidReq.jobId b) s); [|done].
    destruct (decide _); [done|].
    destruct (decide _) as [|Hnew]; [done|].
    unfold Bid_create. rewrite decide_False by done. simpl.
    assert (bids s !! next_id s = None) as Hfresh.
    { destruct (bids s !! next_id s) eqn:Hb; [|done].
      assert (next_id s < next_id s) by (apply (wf_bids_fresh s Hwf); eauto). lia. }
    intros id job. simpl. rewrite bid_count_insert_fresh by done. simpl.
    rewrite lookup_alter_Some.
    intros [(<- & j0 & Hj0 & ->) | [Hne Hj0]].
    + rewrite decide_True by done. simpl. rewrite (Hs _ _ Hj0). lia.
    + rewrite decide_False by done. by apply Hs.
  - unfold acceptBid.
    destruct (bids s !! k) as [bk|] eqn:Hbk; [|done].
    destruct (Job_findById (Bid.jobId bk) s); [|done].
    destruct (decide _); [done|].
    destruct (decide _); [done|].
    assert (∀ i, Bid.jobId <$> <[k:=Bid.set_status Bid.accepted bk]> (bids s) !! i
                 = Bid.jobId <$> bids s !! i) as Hsaved.
    { intros i. destruct (decide (k = i)) as [<-|Hne].
      - by rewrite lookup_insert_eq, Hbk.
      - by rewrite lookup_insert_ne. }
    destruct (populate_user (Bid.freelancerId bk) s) as [f|]; simpl.
    + apply (counts_consistent_same s); [done | |].
      * by apply (jobs_update_counter
                    (with_bids (<[k:=Bid.set_status Bid.accepted bk]> (bids s)) s)).
      * intros i. simpl. rewrite lookup_rejectOthers, <- Hsaved.
        destruct (_ !! i) as [bi|]; simpl; [|done]. by destruct (decide _).
    + apply (counts_consistent_same s); [done | by eauto | exact Hsaved].
  - unfold rejectBid.
    destruct (bids s !! k) as [bk|] eqn:Hbk; [|done].
    destruct (Job_findById (Bid.jobId bk) s); [|done].
    destruct (decide _); [done|]. simpl.
    apply (counts_consistent_same s); [done | by eauto |].
    intros i. simpl. destruct (decide (k = i)) as [<-|Hne].
    + by rewrite lookup_insert_eq, Hbk.
    + by rewrite lookup_insert_ne.
  - unfold deleteBid.
    destruct (bids s !! k) as [bk|] eqn:Hbk; [|done].
    destruct (decide _); [done|].
    destruct (decide _); [done|]. simpl.
    intros id job. simpl. rewrite (bid_count_delete _ _ bk) by done.
    rewrite lookup_alter_Some.
    intros [(<- & j0 & Hj0 & ->) | [Hne Hj0]].
    + rewrite decide_True by done. simpl. rewrite (Hs _ _ Hj0).
      pose proof (bid_count_pos (Bid.jobId bk) k bk (bids s) Hbk eq_refl). lia.
    + rewrite decide_False by done. by apply Hs.
  - unfold createOrder.
    destruct (negb (authorize job_provider u)); [done|].
    destruct (createOrder_errors b); [|done].
    destruct (Job_findById (OrderReq.jobId b) s) as [job|]; [|done].
    destruct (decide _); [done|].
    destruct (Job.assignedTo job ≫= _); [|done].
    destruct order as [oid|]; [|done].
    by destruct (decide _).
  - unfold verifyPayment.
    destruct (VerifyReq.razorpay_order_id b) as [oid|]; [|done].
    destruct (VerifyReq.razorpay_payment_id b) as [pid|]; [|done].
    destruct (VerifyReq.razorpay_signature b) as [sg|]; [|done].
    destruct (Payment_findOne oid s) as [[i p]|]; [|done].
    destruct (RAZORPAY_KEY_SECRET env); [|done].
    destruct (decide _); [done|].
    destruct (Job_findById (Payment.jobId p) s); [|done]. simpl.
    apply (counts_consistent_same s); [done | | done].
    by apply (jobs_update_counter (Payment_save i (Payment.settle pid sg p) s)).
  - unfold webhook.
    destruct (or_else _ _); [|done].
    destruct (decide _); [done|].
    destruct (parse body) as [[e|e|name]|]; simpl; try done.
    + unfold handlePaymentCaptured.
      destruct (Payment_findOne (order_id e) s) as [[i p]|]; [|done].
      apply (counts_consistent_same s); [done | | done].
      by apply (jobs_update_counter
                  (Payment_save i (Payment.capture (entity_id e) p) s)).
    + unfold handlePaymentFailed.
      by destruct (Payment_findOne (order_id e) s) as [[i p]|].
Qed.

(** X1. In every store the system can be in, the [bidsCount] of a job is the
    number of the bids on it: placing a bid adds one to both, deleting a bid
    takes one from both, deleting a job removes its bids with it, and no
    other route touches either. *)
Theorem bidsCount_counts_bids (s : Store) (id : nat) (job : Job.t) :
  reachable hmac parse env s →
  jobs s !! id = Some job →
  Job.bidsCount job = Z.of_nat (bid_count id (bids s)).
Proof.
  intros Hreach. revert id job. change (counts_consistent s).
  induction Hreach as [us|r s Hreach IH].
  - intros id job H. simpl in H. by rewrite lookup_empty in H.
  - apply handle_counts_consistent; [by apply reachable_well_formed | done].
Qed.

(** ** How requests change the bids *)

Lemma authorize_true r u : negb (authorize r u) = false → role u = r.
Proof.
  unfold authorize. intros H%negb_false_iff. by apply bool_decide_eq_true in H.
Qed.

Lemma handle_bids_change r s : bids_change s r (bids (handle hmac parse env r s).1).
Proof.
  destruct r as [u b|u j b|u j|u b|u k|u k|u k|u b order|u b|sig body]; simpl.
  - unfold createJob.
    destruct (negb (authorize job_provider u)); [(simpl; apply bids_unchanged)|].
    destruct (createJob_errors b); [|(simpl; apply bids_unchanged)].
    destruct (negb (job_enums_ok b)); (simpl; apply bids_unchanged).
  - unfold updateJob.
    destruct (negb (authorize job_provider u)); [(simpl; apply bids_unchanged)|].
    destruct (Job_findById j s); [|(simpl; apply bids_unchanged)].
    destruct (decide _); [(simpl; apply bids_unchanged)|].
    destruct (negb (updateJob_valid b)); (simpl; apply bids_unchanged).
  - unfold deleteJob.
    destruct (negb (authorize job_provider u)) eqn:Hrole; [(simpl; apply bids_unchanged)|].
    destruct (Job_findById j s) as [job|] eqn:Hjob; [|(simpl; apply bids_unchanged)].
    destruct (decide _) as [|Hown]; [(simpl; apply bids_unchanged)|]. simpl.
    apply dec_stable in Hown.
    eapply bids_cascaded; [by apply authorize_true | done | done].
  - unfold placeBid.
    destruct (negb (authorize freelancer u)) eqn:Hrole; [(simpl; apply bids_unchanged)|].
    destruct (placeBid_errors b) eqn:Herr; [|(simpl; apply bids_unchanged)].
    destruct (Job_findById (BidReq.jobId b) s) as [job|] eqn:Hjob; [|(simpl; apply bids_unchanged)].
    destruct (decide _) as [|Hopen]; [(simpl; apply bids_unchanged)|].
    destruct (decide _) as [|Hnew]; [(simpl; apply bids_unchanged)|].
    unfold Bid_create. rewrite decide_False by done. simpl.
    apply dec_stable in Hopen.
    eapply bids_placed; [by apply authorize_true | done..].
  - unfold acceptBid.
    destruct (bids s !! k) as [bk|] eqn:Hbk; [|(simpl; apply bids_unchanged)].
    destruct (Job_findById (Bid.jobId bk) s) as [job|] eqn:Hjob; [|(simpl; apply bids_unchanged)].
    destruct (decide _) as [|Hown]; [(simpl; apply bids_unchanged)|].
    destruct (decide _) as [|Hopen]; [(simpl; apply bids_unchanged)|].
    apply dec_stable in Hown. apply dec_stable in Hopen.
    unfold populate_user. destruct (decide _); simpl.
    + by eapply bids_accepted.
    + by eapply bids_accepted_alone.
  - unfold rejectBid.
    destruct (bids s !! k) as [bk|] eqn:Hbk; [|(simpl; apply bids_unchanged)].
    destruct (Job_findById (Bid.jobId bk) s) as [job|] eqn:Hjob; [|(simpl; apply bids_unchanged)].
    destruct (decide _) as [|Hown]; [(simpl; apply bids_unchanged)|]. simpl.
    apply dec_stable in Hown. by eapply bids_rejected.
  - unfold deleteBid.
    destruct (bids s !! k) as [bk|] eqn:Hbk; [|(simpl; apply bids_unchanged)].
    destruct (decide _) as [|Hown]; [(simpl; apply bids_unchanged)|].
    destruct (decide _) as [|Hpending]; [(simpl; apply bids_unchanged)|]. simpl.
    apply dec_stable in Hown. apply dec_stable in Hpending.
    by eapply bids_deleted.
  - unfold createOrder.
    destruct (negb (authorize job_provider u)); [(simpl; apply bids_unchanged)|].
    destruct (createOrder_errors b); [|(simpl; apply bids_unchanged)].
    destruct (Job_findById (OrderReq.jobId b) s) as [job|]; [|(simpl; apply bids_unchanged)].
    destruct (decide _); [(simpl; apply bids_unchanged)|].
    destruct (Job.assignedTo job ≫= _); [|(simpl; apply bids_unchanged)].
    destruct order as [oid|]; [|(simpl; apply bids_unchanged)].
    destruct (decide _); (simpl; apply bids_unchanged).
  - unfold verifyPayment.
    destruct (VerifyReq.razorpay_order_id b) as [oid|]; [|(simpl; apply bids_unchanged)].
    destruct (VerifyReq.razorpay_payment_id b) as [pid|]; [|(simpl; apply bids_unchanged)].
    destruct (VerifyReq.razorpay_signature b) as [sg|]; [|(simpl; apply bids_unchanged)].
    destruct (Payment_findOne oid s) as [[i p]|]; [|(simpl; apply bids_unchanged)].
    destruct (RAZORPAY_KEY_SECRET env); [|(simpl; apply bids_unchanged)].
    destruct (decide _); [(simpl; apply bids_unchanged)|].
    destruct (Job_findById (Payment.jobId p) s); (simpl; apply bids_unchanged).
  - unfold webhook.
    destruct (or_else _ _); [|(simpl; apply bids_unchanged)].
    destruct (decide _); [(simpl; apply bids_unchanged)|].
    destruct (parse body) as [[e|e|name]|]; simpl; try (simpl; apply bids_unchanged).
    + unfold handlePaymentCaptured.
      destruct (Payment_findOne (order_id e) s) as [[i p]|]; (simpl; apply bids_unchanged).
    + unfold handlePaymentFailed.
      destruct (Payment_findOne (order_id e) s) as [[i p]|]; (simpl; apply bids_unchanged).
Qed.

(** ** How requests change the jobs and the payments *)

Lemma handle_jobs_change r s :
  jobs_change hmac parse env s r (jobs (handle hmac parse env r s).1).
Proof.
  destruct r as [u b|u j b|u j|u b|u k|u k|u k|u b order|u b|sig body]; simpl.
  - unfold createJob.
    destruct (negb (authorize job_provider u)) eqn:Hrole; [(simpl; apply jobs_unchanged)|].
    destruct (createJob_errors b) eqn:Herr; [|(simpl; apply jobs_unchanged)].
    destruct (negb (job_enums_ok b)) eqn:Henums; [(simpl; apply jobs_unchanged)|].
    simpl. apply negb_false_iff in Henums.
    apply jobs_created; [by apply authorize_true | done | done].
  - unfold updateJob.
    destruct (negb (authorize job_provider u)) eqn:Hrole; [(simpl; apply jobs_unchanged)|].
    destruct (Job_findById j s) as [job|] eqn:Hjob; [|(simpl; apply jobs_unchanged)].
    destruct (decide _) as [|Hown]; [(simpl; apply jobs_unchanged)|].
    destruct (negb (updateJob_valid b)) eqn:Hvalid; [(simpl; apply jobs_unchanged)|]. simpl.
    apply dec_stable in Hown. apply negb_false_iff in Hvalid.
    eapply jobs_updated; [by apply authorize_true | done..].
  - unfold deleteJob.
    destruct (negb (authorize job_provider u)) eqn:Hrole; [(simpl; apply jobs_unchanged)|].
    destruct (Job_findById j s) as [job|] eqn:Hjob; [|(simpl; apply jobs_unchanged)].
    destruct (decide _) as [|Hown]; [(simpl; apply jobs_unchanged)|]. simpl.
    apply dec_stable in Hown.
    eapply jobs_deleted; [by apply authorize_true | done..].
  - unfold placeBid.
    destruct (negb (authorize freelancer u)) eqn:Hrole; [(simpl; apply jobs_unchanged)|].
    destruct (placeBid_errors b); [|(simpl; apply jobs_unchanged)].
    destruct (Job_findById (BidReq.jobId b) s) as [job|] eqn:Hjob; [|(simpl; apply jobs_unchanged)].
    destruct (decide _) as [|Hopen]; [(simpl; apply jobs_unchanged)|].
    destruct (decide _); [(simpl; apply jobs_unchanged)|].
    destruct (Bid_create _ _ _); [|(simpl; apply jobs_unchanged)]. simpl.
    apply dec_stable in Hopen.
    eapply jobs_bid_placed; [by apply authorize_true | done..].
  - unfold acceptBid.
    destruct (bids s !! k) as [bk|] eqn:Hbk; [|(simpl; apply jobs_unchanged)].
    destruct (Job_findById (Bid.jobId bk) s) as [job|] eqn:Hjob; [|(simpl; apply jobs_unchanged)].
    destruct (decide _) as [|Hown]; [(simpl; apply jobs_unchanged)|].
    destruct (decide _) as [|Hopen]; [(simpl; apply jobs_unchanged)|].
    apply dec_stable in Hown. apply dec_stable in Hopen.
    unfold populate_user. destruct (decide _); simpl; [|(simpl; apply jobs_unchanged)].
    by eapply jobs_assigned.
  - unfold rejectBid.
    destruct (bids s !! k) as [bk|]; [|(simpl; apply jobs_unchanged)].
    destruct (Job_findById (Bid.jobId bk) s); [|(simpl; apply jobs_unchanged)].
    destruct (decide _); (simpl; apply jobs_unchanged).
  - unfold deleteBid.
    destruct (bids s !! k) as [bk|] eqn:Hbk; [|(simpl; apply jobs_unchanged)].
    destruct (decide _) as [|Hown]; [(simpl; apply jobs_unchanged)|].
    destruct (decide _) as [|Hpending]; [(simpl; apply jobs_unchanged)|]. simpl.
    apply dec_stable in Hown. apply dec_stable in Hpending.
    by eapply jobs_bid_deleted.
  - unfold createOrder.
    destruct (negb (authorize job_provider u)); [(simpl; apply jobs_unchanged)|].
    destruct (createOrder_errors b); [|(simpl; apply jobs_unchanged)].
    destruct (Job_findById (OrderReq.jobId b) s) as [job|]; [|(simpl; apply jobs_unchanged)].
    destruct (decide _); [(simpl; apply jobs_unchanged)|].
    destruct (Job.assignedTo job ≫= _); [|(simpl; apply jobs_unchanged)].
    destruct order as [oid|]; [|(simpl; apply jobs_unchanged)].
    destruct (decide _); (simpl; apply jobs_unchanged).
  - unfold verifyPayment.
    destruct b as [[oid|] [pid|] [sg|]]; simpl; try (simpl; apply jobs_unchanged).
    destruct (Payment_findOne oid s) as [[i p]|] eqn:Hfind; [|(simpl; apply jobs_unchanged)].
    destruct (RAZORPAY_KEY_SECRET env) as [key|] eqn:Hkey; [|(simpl; apply jobs_unchanged)].
    destruct (decide _) as [|Hsig]; [(simpl; apply jobs_unchanged)|].
    apply dec_stable in Hsig. subst sg.
    destruct (Job_findById (Payment.jobId p) s); [|(simpl; apply jobs_unchanged)]. simpl.
    by eapply jobs_settled_verify.
  - unfold webhook.
    destruct (or_else _ _) as [key|] eqn:Hkey; [|(simpl; apply jobs_unchanged)].
    destruct (decide _) as [|Hsig]; [(simpl; apply jobs_unchanged)|].
    apply dec_stable in Hsig. subst sig.
    destruct (parse body) as [[e|e|name]|] eqn:Hparse; simpl; try (simpl; apply jobs_unchanged).
    + unfold handlePaymentCaptured.
      destruct (Payment_findOne (order_id e) s) as [[i p]|] eqn:Hfind;
        [|(simpl; apply jobs_unchanged)].
      simpl. by eapply jobs_settled_webhook.
    + unfold handlePaymentFailed.
      destruct (Payment_findOne (order_id e) s) as [[i p]|]; (simpl; apply jobs_unchanged).
Qed.

Lemma handle_payments_change r s :
  payments_change hmac parse env s r (payments (handle hmac parse env r s).1).
Proof.
  destruct r as [u b|u j b|u j|u b|u k|u k|u k|u b order|u b|sig body]; simpl.
  - unfold createJob.
    destruct (negb (authorize job_provider u)); [(simpl; apply payments_unchanged)|].
    destruct (createJob_errors b); [|(simpl; apply payments_unchanged)].
    destruct (negb (job_enums_ok b)); (simpl; apply payments_unchanged).
  - unfold updateJob.
    destruct (negb (authorize job_provider u)); [(simpl; apply payments_unchanged)|].
    destruct (Job_findById j s); [|(simpl; apply payments_unchanged)].
    destruct (decide _); [(simpl; apply payments_unchanged)|].
    destruct (negb (updateJob_valid b)); (simpl; apply payments_unchanged).
  - unfold deleteJob.
    destruct (negb (authorize job_provider u)); [(simpl; apply payments_unchanged)|].
    destruct (Job_findById j s); [|(simpl; apply payments_unchanged)].
    destruct (decide _); (simpl; apply payments_unchanged).
  - unfold placeBid.
    destruct (negb (authorize freelancer u)); [(simpl; apply payments_unchanged)|].
    destruct (placeBid_errors b); [|(simpl; apply payments_unchanged)].
    destruct (Job_findById (BidReq.jobId b) s); [|(simpl; apply payments_unchanged)].
    destruct (decide _); [(simpl; apply payments_unchanged)|].
    destruct (decide _); [(simpl; apply payments_unchanged)|].
    destruct (Bid_create _ _ _); (simpl; apply payments_unchanged).
  - unfold acceptBid.
    destruct (bids s !! k) as [bk|]; [|(simpl; apply payments_unchanged)].
    destruct (Job_findById (Bid.jobId bk) s); [|(simpl; apply payments_unchanged)].
    destruct (decide _); [(simpl; apply payments_unchanged)|].
    destruct (decide _); [(simpl; apply payments_unchanged)|].
    destruct (populate_user _ _); (simpl; apply payments_unchanged).
  - unfold rejectBid.
    destruct (bids s !! k) as [bk|]; [|(simpl; apply payments_unchanged)].
    destruct (Job_findById (Bid.jobId bk) s); [|(simpl; apply payments_unchanged)].
    destruct (decide _); (simpl; apply payments_unchanged).
  - unfold deleteBid.
    destruct (bids s !! k) as [bk|]; [|(simpl; apply payments_unchanged)].
    destruct (decide _); [(simpl; apply payments_unchanged)|].
    destruct (decide _); (simpl; apply payments_unchanged).
  - unfold createOrder.
    destruct (negb (authorize job_provider u)) eqn:Hrole; [(simpl; apply payments_unchanged)|].
    destruct (createOrder_errors b) eqn:Herr; [|(simpl; apply payments_unchanged)].
    destruct (Job_findById (OrderReq.jobId b) s) as [job|] eqn:Hjob;
      [|(simpl; apply payments_unchanged)].
    destruct (decide _) as [|Hown]; [(simpl; apply payments_unchanged)|].
    apply dec_stable in Hown.
    destruct (Job.assignedTo job) as [f0|] eqn:Has; [|(simpl; apply payments_unchanged)].
    simpl. unfold populate_user.
    destruct (decide (f0 ∈ users s)); [|(simpl; apply payments_unchanged)].
    destruct order as [oid|]; [|(simpl; apply payments_unchanged)].
    destruct (decide _); [(simpl; apply payments_unchanged)|]. simpl.
    eapply payments_created; [by apply authorize_true | done..].
  - unfold verifyPayment.
    destruct b as [[oid|] [pid|] [sg|]]; simpl; try (simpl; apply payments_unchanged).
    destruct (Payment_findOne oid s) as [[i p]|] eqn:Hfind; [|(simpl; apply payments_unchanged)].
    destruct (RAZORPAY_KEY_SECRET env) as [key|] eqn:Hkey; [|(simpl; apply payments_unchanged)].
    destruct (decide _) as [Hsig|Hsig].
    + simpl. by eapply payments_verify_failed.
    + apply dec_stable in Hsig. subst sg.
      destruct (Job_findById (Payment.jobId p) s); simpl;
        by eapply payments_verify_paid.
  - unfold webhook.
    destruct (or_else _ _) as [key|] eqn:Hkey; [|(simpl; apply payments_unchanged)].
    destruct (decide _) as [|Hsig]; [(simpl; apply payments_unchanged)|].
    apply dec_stable in Hsig. subst sig.
    destruct (parse body) as [[e|e|name]|] eqn:Hparse; simpl;
      try (simpl; apply payments_unchanged).
    + unfold handlePaymentCaptured.
      destruct (Payment_findOne (order_id e) s) as [[i p]|] eqn:Hfind;
        [|(simpl; apply payments_unchanged)].
      simpl. by eapply payments_webhook_captured.
    + unfold handlePaymentFailed.
      destruct (Payment_findOne (order_id e) s) as [[i p]|] eqn:Hfind;
        [|(simpl; apply payments_unchanged)].
      simpl. by eapply payments_webhook_failed.
Qed.

(** ** Who changes a bid *)

(** X2. In a store the system can be in, a request that changes or removes a
    stored bid is an accept, a reject or a deletion of the job by the
    creator of the bid's job, or the deletion of the bid by its own
    freelancer while the bid is pending. *)
Theorem bid_change_authorized (r : Request) (s : Store) (i : nat) (b : Bid.t) :
  reachable hmac parse env s →
  bids s !! i = Some b →
  bids (handle hmac parse env r s).1 !! i ≠ Some b →
  (∃ u job, jobs s !! Bid.jobId b = Some job
     ∧ Job.createdBy job = user_id u
     ∧ ((∃ k, r = AcceptBid u k) ∨ r = RejectBid u i ∨ r = DeleteJob u (Bid.jobId b)))
  ∨ (∃ u, r = DeleteBid u i ∧ Bid.freelancerId b = user_id u
        ∧ Bid.status b = Bid.pending).
Proof.
  intros Hwf%reachable_well_formed Hb.
  pose proof (handle_bids_change r s) as Hchange.
  set (m' := bids (handle hmac parse env r s).1) in *. clearbody m'.
  destruct Hchange as [r|u rb job Hrole Herr Hjob Hopen Hnew
                      |u k bk job Hbk Hjob Hown Hopen Hreg
                      |u k bk job Hbk Hjob Hown Hopen Hreg
                      |u k bk job Hbk Hjob Hown
                      |u k bk Hbk Hown Hpending
                      |u j job Hrole Hjob Hown]; intros Hne.
  - done.
  - destruct Hne. rewrite lookup_insert_ne; [done|].
    assert (i < next_id s) by (apply (wf_bids_fresh s Hwf); eauto). lia.
  - left. exists u, job. rewrite lookup_rejectOthers in Hne.
    destruct (decide (k = i)) as [->|Hki].
    + rewrite Hb in Hbk. injection Hbk as <-. split_and!; eauto.
    + rewrite lookup_insert_ne, Hb in Hne by done. simpl in Hne.
      destruct (decide _) as [[Hsame _]|]; [|done].
      rewrite Hsame. split_and!; eauto.
  - left. exists u, job. destruct (decide (k = i)) as [->|Hki].
    + rewrite Hb in Hbk. injection Hbk as <-. split_and!; eauto.
    + by rewrite lookup_insert_ne in Hne.
  - left. exists u, job. destruct (decide (k = i)) as [->|Hki].
    + rewrite Hb in Hbk. injection Hbk as <-. split_and!; eauto.
    + by rewrite lookup_insert_ne in Hne.
  - right. exists u. destruct (decide (k = i)) as [->|Hki].
    + rewrite Hb in Hbk. by injection Hbk as <-.
    + by rewrite lookup_delete_ne in Hne.
  - left. exists u, job. destruct (decide (Bid.jobId b = j)) as [<-|Hj].
    + split_and!; eauto.
    + destruct Hne. by apply lookup_deleteMany_Some.
Qed.

(** ** One accepted bid per job *)

Lemma accepted_unique_sub (m m' : gmap nat Bid.t) :
  accepted_unique m →
  (∀ i b', m' !! i = Some b' → Bid.status b' = Bid.accepted →
     ∃ b, m !! i = Some b ∧ Bid.status b = Bid.accepted ∧ Bid.jobId b = Bid.jobId b') →
  accepted_unique m'.
Proof.
  intros Hu Hsub i1 i2 b1 b2 H1 H2 Ha1 Ha2 Hj.
  destruct (Hsub i1 b1 H1 Ha1) as (c1 & Hc1 & Hs1 & Hj1).
  destruct (Hsub i2 b2 H2 Ha2) as (c2 & Hc2 & Hs2 & Hj2).
  apply (Hu i1 i2 c1 c2); congruence.
Qed.

(** X3. Let every bid be of a registered account. If no job has two
    accepted bids, no request gives a job two accepted bids: accepting a bid
    rejects every other bid on its job, the bid that was accepted before it
    among them. And as long as the callers are registered accounts, every
    bid stays of a registered account. *)
Theorem accepted_bid_unique (r : Request) (s : Store) :
  bids_registered s →
  accepted_unique (bids s) →
  accepted_unique (bids (handle hmac parse env r s).1)
  ∧ ((∀ u, caller r = Some u → user_id u ∈ users s) →
     bids_registered (handle hmac parse env r s).1).
Proof.
  intros Hreg Hu.
  assert (users (handle hmac parse env r s).1 = users s) as Husers.
  { destruct r as [u b|u j b|u j|u b|u k|u k|u k|u b order|u b|sig body]; simpl.
    - unfold createJob. by repeat case_match.
    - unfold updateJob. by repeat case_match.
    - unfold deleteJob. by repeat case_match.
    - unfold placeBid. by repeat case_match.
    - unfold acceptBid. by repeat case_match.
    - unfold rejectBid. by repeat case_match.
    - unfold deleteBid. by repeat case_match.
    - unfold createOrder. by repeat case_match.
    - unfold verifyPayment. by repeat case_match.
    - unfold webhook, handlePaymentCaptured, handlePaymentFailed.
      by repeat case_match. }
  unfold bids_registered. rewrite Husers. clear Husers.
  pose proof (handle_bids_change r s) as Hchange.
  set (m' := bids (handle hmac parse env r s).1) in *. clearbody m'.
  destruct Hchange as [r|u rb job Hrole Herr Hjob Hopen Hnew
                      |u k bk job Hbk Hjob Hown Hopen Hin
                      |u k bk job Hbk Hjob Hown Hopen Hin
                      |u k bk job Hbk Hjob Hown
                      |u k bk Hbk Hown Hpending
                      |u j job Hrole Hjob Hown].
  - done.
  - split.
    + apply (accepted_unique_sub (bids s)); [done|].
      intros i b'. rewrite lookup_insert_Some.
      intros [[_ <-] | [_ Hi]]; [done | eauto].
    + intros Hcaller i b'. rewrite lookup_insert_Some.
      intros [[_ <-] | [_ Hi]]; simpl; [by apply Hcaller | by eapply Hreg].
  - split.
    + intros i1 i2 b1 b2. rewrite !lookup_rejectOthers.
      destruct (decide (i1 = i2)) as [|Hne]; [done|].
      intros H1 H2 Ha1 Ha2 Hj. exfalso.
      assert (∀ i b', (λ b0, if decide (Bid.jobId b0 = Bid.jobId bk ∧ i ≠ k)
                             then Bid.set_status Bid.rejected b0 else b0)
                        <$> <[k:=Bid.set_status Bid.accepted bk]> (bids s) !! i
                      = Some b' →
                Bid.status b' = Bid.accepted →
                (i = k ∧ Bid.jobId b' = Bid.jobId bk)
                ∨ (i ≠ k ∧ Bid.jobId b' ≠ Bid.jobId bk ∧ bids s !! i = Some b')) as Hcase.
      { intros i b'. destruct (decide (i = k)) as [->|Hik].
        - rewrite lookup_insert_eq. simpl.
          rewrite decide_False by (by intros [_ []]). intros [= <-] _. by left.
        - rewrite lookup_insert_ne by done.
          destruct (bids s !! i) as [b0|]; simpl; [|done].
          destruct (decide _) as [|Hnot]; [by intros [= <-]|].
          intros [= <-] _. right. split_and!; [done | | done].
          intros Hsame. by apply Hnot. }
      destruct (Hcase i1 b1 H1 Ha1) as [[-> Hj1] | (Hk1 & Hj1 & Hb1)],
               (Hcase i2 b2 H2 Ha2) as [[-> Hj2] | (Hk2 & Hj2 & Hb2)];
        try congruence.
      apply Hne. by apply (Hu i1 i2 b1 b2).
    + intros _ i b'. rewrite lookup_rejectOthers.
      destruct (decide (i = k)) as [->|Hik].
      * rewrite lookup_insert_eq. simpl.
        rewrite decide_False by (by intros [_ []]). by intros [= <-].
      * rewrite lookup_insert_ne by done.
        destruct (bids s !! i) as [b0|] eqn:Hb0; simpl; [|done].
        intros [= <-]. destruct (decide _); simpl; by eapply Hreg.
  - destruct Hin. by eapply Hreg.
  - split.
    + apply (accepted_unique_sub (bids s)); [done|].
      intros i b'. rewrite lookup_insert_Some.
      intros [[_ <-] | [_ Hi]]; [done | eauto].
    + intros _ i b'. rewrite lookup_insert_Some.
      intros [[_ <-] | [_ Hi]]; simpl; by eapply Hreg.
  - split.
    + apply (accepted_unique_sub (bids s)); [done|].
      intros i b' [_ Hi]%lookup_delete_Some. eauto.
    + intros _ i b' [_ Hi]%lookup_delete_Some. by eapply Hreg.
  - split.
    + apply (accepted_unique_sub (bids s)); [done|].
      intros i b' [Hi _]%lookup_deleteMany_Some. eauto.
    + intros _ i b' [Hi _]%lookup_deleteMany_Some. by eapply Hreg.
Qed.

(** ** What changes a job *)


(** X5. In a store the system can be in, no request changes the creator or
    the category of a job that stays, or withdraws its assignment; and the
    assignment is changed by an accept of the job's creator only, while the
    job is open. *)
Theorem job_fields_stable (r : Request) (s : Store) (id : nat) (job job' : Job.t) :
  reachable hmac parse env s →
  jobs s !! id = Some job →
  jobs (handle hmac parse env r s).1 !! id = Some job' →
  Job.createdBy job' = Job.createdBy job
  ∧ Job.category job' = Job.category job
  ∧ (is_Some (Job.assignedTo job) → is_Some (Job.assignedTo job'))
  ∧ (Job.assignedTo job' ≠ Job.assignedTo job →
     ∃ u k bid, r = AcceptBid u k ∧ Job.createdBy job = user_id u
       ∧ Job.status job = Job.open ∧ bids s !! k = Some bid ∧ Bid.jobId bid = id
       ∧ Job.assignedTo job' = Some (Bid.freelancerId bid)).
Proof.
  intros Hwf%reachable_well_formed Hjob.
  pose proof (handle_jobs_change r s) as Hchange.
  set (m' := jobs (handle hmac parse env r s).1) in *. clearbody m'.
  assert (∀ f k, alter f k (jobs s) !! id = Some job' →
          (∀ j, Job.createdBy (f j) = Job.createdBy j
                ∧ Job.category (f j) = Job.category j
                ∧ Job.assignedTo (f j) = Job.assignedTo j) →
          Job.createdBy job' = Job.createdBy job
          ∧ Job.category job' = Job.category job
          ∧ Job.assignedTo job' = Job.assignedTo job) as Hframe.
  { intros f k [(-> & j0 & Hj0 & ->) | [_ Hj0]]%lookup_alter_Some Hf.
    - rewrite Hjob in Hj0. injection Hj0 as <-. apply Hf.
    - rewrite Hjob in Hj0. by injection Hj0 as <-. }
  destruct Hchange as [r|u b Hrole Herr Henums
                      |u j b job0 Hrole Hjob0 Hown Hvalid
                      |u j job0 Hrole Hjob0 Hown
                      |u b job0 Hrole Hjob0 Hopen
                      |u k bk job0 Hbk Hjob0 Hown Hopen Hreg
                      |u k bk Hbk Hown Hpending
                      |u oid pid key i p Hfind Hkey
                      |body key e i p Hkey Hparse Hfind]; intros Hjob'.
  - rewrite Hjob in Hjob'. injection Hjob' as <-. by split_and!.
  - rewrite lookup_insert_ne in Hjob' by
      (assert (id < next_id s) by (apply (wf_jobs_fresh s Hwf); eauto); lia).
    rewrite Hjob in Hjob'. injection Hjob' as <-. by split_and!.
  - destruct (Hframe _ _ Hjob') as (-> & -> & ->); [done|]. by split_and!.
  - apply lookup_delete_Some in Hjob' as [_ Hjob'].
    rewrite Hjob in Hjob'. injection Hjob' as <-. by split_and!.
  - destruct (Hframe _ _ Hjob') as (-> & -> & ->); [done|]. by split_and!.
  - apply lookup_alter_Some in Hjob' as [(<- & j0 & Hj0 & ->) | [_ Hj0]].
    + rewrite Hjob in Hjob0, Hj0. injection Hjob0 as <-. injection Hj0 as <-.
      simpl. split_and!; [done | done | by eauto |].
      intros _. by exists u, k, bk.
    + rewrite Hjob in Hj0. injection Hj0 as <-. by split_and!.
  - destruct (Hframe _ _ Hjob') as (-> & -> & ->); [done|]. by split_and!.
  - destruct (Hframe _ _ Hjob') as (-> & -> & ->); [done|]. by split_and!.
  - destruct (Hframe _ _ Hjob') as (-> & -> & ->); [done|]. by split_and!.
Qed.

(** ** What changes a payment *)

(** X6. A payment that is paid after a request was paid before it, or the
    request is a verification for its order id with the matching signature,
    or a notification of capture for its order id signed with the webhook
    secret (the key secret when no webhook secret is set). *)
Theorem payment_paid_provenance (r : Request) (s : Store) (i : nat) (p' : Payment.t) :
  payments (handle hmac parse env r s).1 !! i = Some p' →
  Payment.status p' = Payment.paid →
  (∃ p, payments s !! i = Some p ∧ Payment.status p = Payment.paid)
  ∨ (∃ u pid key,
       r = VerifyPayment u
             (VerifyReq.mk (Some (Payment.razorpayOrderId p')) (Some pid)
                (Some (expectedSignature hmac key (Payment.razorpayOrderId p') pid)))
       ∧ RAZORPAY_KEY_SECRET env = Some key)
  ∨ (∃ body key e,
       r = Webhook (Some (hmac key body)) body
       ∧ or_else (RAZORPAY_WEBHOOK_SECRET env) (RAZORPAY_KEY_SECRET env) = Some key
       ∧ parse body = Some (payment_captured e)
       ∧ order_id e = Payment.razorpayOrderId p').
Proof.
  pose proof (handle_payments_change r s) as Hchange.
  set (l' := payments (handle hmac parse env r s).1) in *. clearbody l'.
  destruct Hchange as [r|u b oid job f Hrole Herr Hjob Hown Has Hreg Hoid
                      |u oid pid sig key k p Hfind Hkey Hsig
                      |u oid pid key k p Hfind Hkey
                      |body key e k p Hkey Hparse Hfind
                      |body key e k p Hkey Hparse Hfind]; intros Hp' Hpaid.
  - left. eauto.
  - apply lookup_app_Some in Hp' as [Hp' | [_ Hp']]; [left; eauto|].
    apply list_lookup_singleton_Some in Hp' as [_ <-]. done.
  - apply list_lookup_insert_Some in Hp' as [(-> & <- & _) | [_ Hp']];
      [done | left; eauto].
  - apply Payment_findOne_Some in Hfind as [Hk Hoid].
    apply list_lookup_insert_Some in Hp' as [(-> & <- & _) | [_ Hp']];
      [|left; eauto].
    right. left. exists u, pid, key. simpl. by rewrite Hoid.
  - apply Payment_findOne_Some in Hfind as [Hk Hoid].
    apply list_lookup_insert_Some in Hp' as [(-> & <- & _) | [_ Hp']];
      [|left; eauto].
    do 2 right. by exists body, key, e.
  - apply list_lookup_insert_Some in Hp' as [(-> & <- & _) | [_ Hp']];
      [done | left; eauto].
Qed.

(** X7. Payments are never removed. The only request that adds one is the
    creation of an order by the creator of the job, a job provider, for a job
    that is assigned to a registered account: the payment is appended with
    status created, the caller as payer, the assigned freelancer as payee and
    the order id of the gateway. *)
Theorem payments_grow (r : Request) (s : Store) :
  let ps' := payments (handle hmac parse env r s).1 in
  length ps' = length (payments s)
  ∨ (∃ u b oid job p,
       r = CreateOrder u b (Some oid)
       ∧ role u = job_provider
       ∧ jobs s !! OrderReq.jobId b = Some job
       ∧ Job.createdBy job = user_id u
       ∧ ps' = payments s ++ [p]
       ∧ Payment.status p = Payment.created
       ∧ Payment.jobId p = OrderReq.jobId b
       ∧ Payment.payerId p = user_id u
       ∧ Job.assignedTo job = Some (Payment.payeeId p)
       ∧ Payment.payeeId p ∈ users s
       ∧ Payment.amount p = OrderReq.amount b
       ∧ (1 ≤ Payment.amount p)%Z
       ∧ Payment.razorpayOrderId p = oid).
Proof.
  intros ps'. pose proof (handle_payments_change r s) as Hchange.
  fold ps' in Hchange. clearbody ps'.
  destruct Hchange as [r|u b oid job f Hrole Herr Hjob Hown Has Hreg Hoid
                      |u oid pid sig key k p Hfind Hkey Hsig
                      |u oid pid key k p Hfind Hkey
                      |body key e k p Hkey Hparse Hfind
                      |body key e k p Hkey Hparse Hfind];
    try (left; by rewrite ?length_insert).
  right. eexists u, b, oid, job, _. split_and!; try done. simpl.
  unfold createOrder_errors, check in Herr. by case_bool_decide.
Qed.

Lemma handle_job_back r s id job' :
  id < next_id s →
  jobs (handle hmac parse env r s).1 !! id = Some job' →
  ∃ job, jobs s !! id = Some job ∧ Job.createdBy job' = Job.createdBy job.
Proof.
  intros Hlt. pose proof (handle_jobs_change r s) as Hjobs.
  set (js' := jobs (handle hmac parse env r s).1) in *. clearbody js'.
  destruct Hjobs as [r|u b Hrole Herr Henums
                    |u j b job0 Hrole Hjob0 Hown Hvalid
                    |u j job0 Hrole Hjob0 Hown
                    |u b job0 Hrole Hjob0 Hopen
                    |u k bk job0 Hbk Hjob0 Hown Hopen Hreg
                    |u k bk Hbk Hown Hpending
                    |u oid pid key i p Hfind Hkey
                    |body key e i p Hkey Hparse Hfind].
  - eauto.
  - rewrite lookup_insert_ne by lia. eauto.
  - intros [(<- & j0 & Hj0 & ->) | [_ Hj0]]%lookup_alter_Some; eauto.
  - intros [_ Hj0]%lookup_delete_Some. eauto.
  - intros [(<- & j0 & Hj0 & ->) | [_ Hj0]]%lookup_alter_Some; eauto.
  - intros [(<- & j0 & Hj0 & ->) | [_ Hj0]]%lookup_alter_Some; eauto.
  - intros [(<- & j0 & Hj0 & ->) | [_ Hj0]]%lookup_alter_Some; eauto.
  - intros [(<- & j0 & Hj0 & ->) | [_ Hj0]]%lookup_alter_Some; eauto.
  - intros [(<- & j0 & Hj0 & ->) | [_ Hj0]]%lookup_alter_Some; eauto.
Qed.

(** X8. In every store the system can be in, the payer of a payment is the
    creator of the job it pays for, for as long as the job exists. *)
Theorem payer_is_job_creator (s : Store) (p : Payment.t) (job : Job.t) :
  reachable hmac parse env s →
  p ∈ payments s →
  jobs s !! Payment.jobId p = Some job →
  Job.createdBy job = Payment.payerId p.
Proof.
  intros Hreach. revert p job.
  induction Hreach as [us|r s Hreach IH]; simpl.
  { intros p job Hp. by apply elem_of_nil in Hp. }
  pose proof (reachable_well_formed s Hreach) as Hwf.
  pose proof (handle_payments_change r s) as Hpay.
  pose proof (handle_jobs_change r s) as Hjobs.
  set (ps' := payments (handle hmac parse env r s).1) in *.
  set (js' := jobs (handle hmac parse env r s).1) in *.
  assert (∀ id job', id < next_id s → js' !! id = Some job' →
            ∃ job, jobs s !! id = Some job
                   ∧ Job.createdBy job' = Job.createdBy job) as Hback
    by (intros id job'; apply handle_job_back).
  clearbody ps' js'.
  assert (∀ q q', q ∈ payments s →
            Payment.jobId q' = Payment.jobId q →
            Payment.payerId q' = Payment.payerId q →
            ∀ job', js' !! Payment.jobId q' = Some job' →
            Job.createdBy job' = Payment.payerId q') as Hold.
  { intros q q' Hq Hj Hpayer job' Hjob'. rewrite Hj in Hjob'.
    destruct (wf_payment_job s Hwf q Hq) as [Hlt _].
    destruct (Hback _ _ Hlt Hjob') as (job & Hjob & ->).
    rewrite Hpayer. by eapply IH. }
  assert (∀ i q q0 q', payments s !! i = Some q0 → q ∈ <[i:=q']> (payments s) →
            Payment.jobId q' = Payment.jobId q0 →
            Payment.payerId q' = Payment.payerId q0 →
            ∃ q1, q1 ∈ payments s ∧ Payment.jobId q = Payment.jobId q1
                  ∧ Payment.payerId q = Payment.payerId q1) as Hsaved.
  { intros i q q0 q' Hi [k Hk]%list_elem_of_lookup Hj Hpayer.
    apply list_lookup_insert_Some in Hk as [(-> & -> & _) | [_ Hk]].
    - exists q0. split; [|done]. apply list_elem_of_lookup. eauto.
    - exists q. split; [|done]. apply list_elem_of_lookup. eauto. }
  intros p job Hp Hjob.
  destruct Hpay as [r|u b oid job0 f Hrole Herr Hjob0 Hown Has Hreg Hoid
                   |u oid pid sig key k p0 Hfind Hkey Hsig
                   |u oid pid key k p0 Hfind Hkey
                   |body key e k p0 Hkey Hparse Hfind
                   |body key e k p0 Hkey Hparse Hfind].
  - by eapply (Hold p p).
  - apply elem_of_app in Hp as [Hp | ->%list_elem_of_singleton];
      [by eapply (Hold p p)|].
    simpl in *. inversion Hjobs; subst. rewrite Hjob0 in Hjob. by injection Hjob as <-.
  - apply Payment_findOne_Some in Hfind as [Hk _].
    destruct (Hsaved k p p0 _ Hk Hp eq_refl eq_refl) as (q1 & Hq1 & Hj & Hpayer).
    by eapply (Hold q1 p).
  - apply Payment_findOne_Some in Hfind as [Hk _].
    destruct (Hsaved k p p0 _ Hk Hp eq_refl eq_refl) as (q1 & Hq1 & Hj & Hpayer).
    by eapply (Hold q1 p).
  - apply Payment_findOne_Some in Hfind as [Hk _].
    destruct (Hsaved k p p0 _ Hk Hp eq_refl eq_refl) as (q1 & Hq1 & Hj & Hpayer).
    by eapply (Hold q1 p).
  - apply Payment_findOne_Some in Hfind as [Hk _].
    destruct (Hsaved k p p0 _ Hk Hp eq_refl eq_refl) as (q1 & Hq1 & Hj & Hpayer).
    by eapply (Hold q1 p).
Qed.

(** ** Notifications of the gateway *)


(** ** Stored bids *)

(** X10. In every store the system can be in, every bid has a job. *)
Theorem bid_has_job (s : Store) (i : nat) (b : Bid.t) :
  reachable hmac parse env s →
  bids s !! i = Some b →
  is_Some (jobs s !! Bid.jobId b).
Proof. intros Hwf%reachable_well_formed Hb. by eapply wf_bid_job. Qed.


(** ** Deleting a job *)

(** X12. When a job provider deletes a job of their own: the job is gone and
    so is every bid on it, the other jobs and the bids on them are as they
    were, the payments stay (those of the deleted job among them), and a bid
    can no longer be placed on the job. *)
Theorem deleteJob_cascade (u : User) (id : nat) (s : Store) (job : Job.t) :
  role u = job_provider →
  jobs s !! id = Some job →
  Job.createdBy job = user_id u →
  (deleteJob u id s).2 = Json 200 "Job deleted successfully"
  ∧ jobs (deleteJob u id s).1 !! id = None
  ∧ (∀ k, k ≠ id → jobs (deleteJob u id s).1 !! k = jobs s !! k)
  ∧ (∀ i b, bids (deleteJob u id s).1 !! i = Some b
            ↔ bids s !! i = Some b ∧ Bid.jobId b ≠ id)
  ∧ payments (deleteJob u id s).1 = payments s
  ∧ (∀ v b, BidReq.jobId b = id →
       (placeBid v b (deleteJob u id s).1).1 = (deleteJob u id s).1
       ∧ (placeBid v b (deleteJob u id s).1).2
         ≠ Json 201 "Bid submitted successfully").
Proof.
  intros Hrole Hjob Hown. unfold deleteJob, authorize, Job_findById.
  rewrite bool_decide_eq_true_2 by done. simpl. rewrite Hjob.
  rewrite decide_False by (by intros []). simpl.
  split_and!; try done.
  - apply lookup_delete_eq.
  - intros k Hk. by apply lookup_delete_ne.
  - intros i b. apply lookup_deleteMany_Some.
  - intros v b Hb. unfold placeBid, Job_findById. simpl.
    rewrite Hb, lookup_delete_eq.
    destruct (negb (authorize freelancer v)); [done|].
    by destruct (placeBid_errors b).
Qed.

(** ** Accepting closes the job *)


(** ** Placing and withdrawing a bid *)

Lemma inc_bidsCount_back j : Job.inc_bidsCount (-1) (Job.inc_bidsCount 1 j) = j.
Proof.
  destruct j. unfold Job.inc_bidsCount. simpl. f_equal. lia.
Qed.

(** X14. In a store the system can be in, a freelancer who placed a bid
    (reply 201) and deletes it next leaves the jobs, with their counters,
    and the bids as they were before the bid was placed; only the identifier
    is spent. *)
Theorem placeBid_deleteBid (u : User) (b : BidReq.t) (s : Store) :
  reachable hmac parse env s →
  (placeBid u b s).2 = Json 201 "Bid submitted successfully" →
  deleteBid u (next_id s) (placeBid u b s).1
  = (with_next_id (S (next_id s)) s, Json 200 "Bid deleted successfully").
Proof.
  intros Hwf%reachable_well_formed. unfold placeBid.
  destruct (negb (authorize freelancer u)); [done|].
  destruct (placeBid_errors b); [|done].
  destruct (Job_findById (BidReq.jobId b) s) as [job|]; [|done].
  destruct (decide _); [done|].
  destruct (decide _) as [|Hnew]; [done|].
  unfold Bid_create. rewrite decide_False by done. cbn [fst snd]. intros _.
  assert (bids s !! next_id s = None) as Hfresh.
  { destruct (bids s !! next_id s) eqn:Hb; [|done].
    assert (next_id s < next_id s) by (apply (wf_bids_fresh s Hwf); eauto). lia. }
  unfold deleteBid. simpl. rewrite lookup_insert_eq. simpl.
  rewrite decide_False by (by intros []).
  f_equal. unfold Job_findByIdAndUpdate, with_jobs, with_bids, with_next_id. simpl.
  rewrite delete_insert_id by done. rewrite alter_alter_eq.
  rewrite alter_id; [done|].
  intros j _. apply inc_bidsCount_back.
Qed.

(** ** Verifying the payment of a deleted job *)

(** X15. Let the route find the payment of the order, with the secret
    configured and the matching signature, while the job of the payment is
    gone (deleting a job keeps its payments). Then the payment is stored as
    paid with the transaction id and the signature, although the caller gets
    the 500 reply; the jobs and the other payments are untouched. *)
Theorem verifyPayment_job_gone (s : Store) (u : User) (oid pid key : string)
    (i : nat) (p : Payment.t) :
  Payment_findOne oid s = Some (i, p) →
  RAZORPAY_KEY_SECRET env = Some key →
  jobs s !! Payment.jobId p = None →
  let out := verifyPayment hmac env u
               (VerifyReq.mk (Some oid) (Some pid)
                  (Some (expectedSignature hmac key oid pid))) s in
  out.2 = Json 500 "Server error verifying payment"
  ∧ payments out.1 !! i
    = Some (Payment.settle pid (expectedSignature hmac key oid pid) p)
  ∧ (∀ k, k ≠ i → payments out.1 !! k = payments s !! k)
  ∧ jobs out.1 = jobs s.
Proof.
  intros Hfind Hkey Hjob. unfold verifyPayment, Job_findById. simpl.
  rewrite Hfind, Hkey. rewrite decide_False by (intros H; by apply H).
  rewrite Hjob. simpl.
  apply Payment_findOne_Some in Hfind as [Hi _].
  split_and!; try done.
  - apply list_lookup_insert_eq. by eapply lookup_lt_Some.
  - intros k Hk. by apply list_lookup_insert_ne.
Qed.

(** ** The history of payments *)

(** X16. When an order is created (reply 200), the new payment is the first
    of the history of the caller, and the first of the history of the
    freelancer it pays; the history of every account that is neither its
    payer nor its payee is as it was. *)
Theorem paymentHistory_after_order (u : User) (b : OrderReq.t) (oid : string)
    (s s' : Store) :
  createOrder u b (Some oid) s = (s', Json 200 "Payment order created successfully") →
  ∃ p, payments s' = payments s ++ [p]
    ∧ paymentHistory u s' = p :: paymentHistory u s
    ∧ (∀ v, role v = freelancer → user_id v = Payment.payeeId p →
         paymentHistory v s' = p :: paymentHistory v s)
    ∧ (∀ v, user_id v ≠ Payment.payerId p → user_id v ≠ Payment.payeeId p →
         paymentHistory v s' = paymentHistory v s).
Proof.
  unfold createOrder.
  destruct (negb (authorize job_provider u)) eqn:Hrole; [done|].
  apply authorize_true in Hrole.
  destruct (createOrder_errors b); [|done].
  destruct (Job_findById (OrderReq.jobId b) s) as [job|]; [|done].
  destruct (decide _); [done|].
  destruct (Job.assignedTo job ≫= _) as [f|]; [|done].
  destruct (decide _); [done|].
  intros [= <-]. eexists. split; [done|].
  unfold paymentHistory. simpl. split_and!.
  - rewrite filter_app, reverse_app, filter_cons_True; [done|].
    unfold history_query. by rewrite Hrole.
  - intros v Hv Hpayee.
    rewrite filter_app, reverse_app, filter_cons_True; [done|].
    unfold history_query. by rewrite Hv.
  - intros v Hpayer Hpayee.
    rewrite filter_app, reverse_app, filter_cons_False; [done|].
    unfold history_query. simpl. destruct (role v); congruence.
Qed.

(** ** Stored jobs *)

Lemma trim_length_nonempty n x : 0 < n → n ≤ String.length (trim x) → trim x ≠ "".
Proof. intros Hn Hlen Heq. rewrite Heq in Hlen. simpl in Hlen. lia. Qed.

(** X17. In every store the system can be in, every job has a title and a
    description that are not empty, a category, a budget type, an experience
    level and, when it has one, a duration of the schema's lists, and a
    budget that is not negative. *)
Theorem stored_job_valid (s : Store) (id : nat) (job : Job.t) :
  reachable hmac parse env s →
  jobs s !! id = Some job →
  job_valid job.
Proof.
  intros Hreach. revert id job.
  induction Hreach as [us|r s Hreach IH]; simpl.
  { intros id job H. by rewrite lookup_empty in H. }
  pose proof (handle_jobs_change r s) as Hchange.
  set (m' := jobs (handle hmac parse env r s).1) in *. clearbody m'.
  assert (∀ f k id job', alter f k (jobs s) !! id = Some job' →
            (∀ j, job_valid j → job_valid (f j)) → job_valid job') as Hframe.
  { intros f k id job' [(-> & j0 & Hj0 & ->) | [_ Hj0]]%lookup_alter_Some Hf;
      [apply Hf|]; by eapply IH. }
  destruct Hchange as [r|u b Hrole Herr Henums
                      |u j b job0 Hrole Hjob0 Hown Hvalid
                      |u j job0 Hrole Hjob0 Hown
                      |u b job0 Hrole Hjob0 Hopen
                      |u k bk job0 Hbk Hjob0 Hown Hopen Hreg
                      |u k bk Hbk Hown Hpending
                      |u oid pid key i p Hfind Hkey
                      |body key e i p Hkey Hparse Hfind]; intros id job.
  - apply IH.
  - rewrite lookup_insert_Some. intros [[_ <-] | [_ Hi]]; [|by eapply IH].
    unfold job_enums_ok in Henums.
    apply andb_prop in Henums as [[Hbt%bool_decide_eq_true Hdur]%andb_prop
                                    Hexp%bool_decide_eq_true].
    unfold createJob_errors, check in Herr.
    repeat case_bool_decide; simplify_eq/=.
    unfold job_valid. simpl. split_and!; try done.
    + by apply (trim_length_nonempty 5); [lia|].
    + by apply (trim_length_nonempty 20); [lia|].
    + lia.
    + intros d Hd. rewrite Hd in Hdur. by apply bool_decide_eq_true in Hdur.
  - intros Hjob. apply (Hframe _ _ _ _ Hjob). intros j0 Hj0.
    unfold updateJob_valid in Hvalid.
    apply andb_prop in Hvalid as [[[Ht Hd]%andb_prop Hb]%andb_prop _].
    destruct Hj0 as (H1 & H2 & H3 & H4 & H5 & H6 & H7).
    unfold job_valid. simpl. split_and!; try done.
    + destruct (JobUpdate.title b); simpl; [|done].
      apply negb_true_iff in Ht. by apply bool_decide_eq_false in Ht.
    + destruct (JobUpdate.description b); simpl; [|done].
      apply negb_true_iff in Hd. by apply bool_decide_eq_false in Hd.
    + destruct (JobUpdate.budget b); simpl; [|done].
      by apply bool_decide_eq_true in Hb.
  - intros [_ Hi]%lookup_delete_Some. by eapply IH.
  - intros Hjob. by apply (Hframe _ _ _ _ Hjob).
  - intros Hjob. by apply (Hframe _ _ _ _ Hjob).
  - intros Hjob. by apply (Hframe _ _ _ _ Hjob).
  - intros Hjob. by apply (Hframe _ _ _ _ Hjob).
  - intros Hjob. by apply (Hframe _ _ _ _ Hjob).
Qed.

End Properties.

(** C9. With the payment found and the secret configured, whether the verify
    route rejects the signature depends on the order id, the transaction id,
    the secret and the supplied signature only: two runs on these inputs, in
    whatever stores and for whatever callers, both reject or both accept.
    And when a signature is accepted, the signature with any one bit of any
    one of its characters flipped is rejected. *)
Theorem signature_check (hmac : string → string → string) (env1 env2 : Env)
    (s1 s2 : Store) (u1 u2 : User) (oid pid sig key : string)
    (i1 i2 : nat) (p1 p2 : Payment.t) :
  RAZORPAY_KEY_SECRET env1 = Some key →
  RAZORPAY_KEY_SECRET env2 = Some key →
  Payment_findOne oid s1 = Some (i1, p1) →
  Payment_findOne oid s2 = Some (i2, p2) →
  let req x := VerifyReq.mk (Some oid) (Some pid) (Some x) in
  (rejects (verifyPayment hmac env1 u1 (req sig) s1).2
   ↔ rejects (verifyPayment hmac env2 u2 (req sig) s2).2)
  ∧ (¬ rejects (verifyPayment hmac env1 u1 (req sig) s1).2 →
     ∀ i k, i < String.length sig → k < 8 →
       rejects (verifyPayment hmac env2 u2 (req (flip_bit i k sig)) s2).2).
Proof.
  intros Hkey1 Hkey2 H1 H2 req. split.
  - unfold req. by rewrite !verifyPayment_rejects_iff.
  - unfold req. intros Hacc i k Hi Hk.
    rewrite verifyPayment_rejects_iff in Hacc by done.
    rewrite verifyPayment_rejects_iff by done.
    apply dec_stable in Hacc. rewrite <- Hacc.
    by apply flip_bit_neq.
Qed.

(** * The theorems on the worked scenario *)

Lemma reachable_run rs s :
  reachable sample_hmac sample_parse sample_env s →
  reachable sample_hmac sample_parse sample_env (run rs s).
Proof.
  revert s. induction rs as [|r rs IH]; intros s Hs; [done|].
  apply IH. by apply reachable_handle.
Qed.

Lemma reachable_store_open : reachable sample_hmac sample_parse sample_env store_open.
Proof. apply reachable_run, reachable_initial. Qed.

(** The owner accepts the bid of alice on the open job: the bid of bob ends
    rejected and the job is assigned to alice. *)
Lemma acceptBid_spec_witness :
  (acceptBid owner 1 store_open).2 = Json 200 "Bid accepted successfully"
  ∧ bids (acceptBid owner 1 store_open).1 !! 1
    = Some (Bid.mk 101 0 400 "I can do this in a week" 7 Bid.accepted)
  ∧ bids (acceptBid owner 1 store_open).1 !! 2
    = Some (Bid.mk 102 0 450 "Happy to help with it" 5 Bid.rejected)
  ∧ acceptBid owner 2 store_assigned = (store_assigned, Json 400 "Job is no longer open").
Proof.
  destruct (acceptBid_spec store_open owner 1
              (Bid.mk 101 0 400 "I can do this in a week" 7 Bid.pending)
              (Job.mk "Landing page" "Build a landing page for a shop" "Web Development"
                 500 "fixed" [] None "intermediate" 100 Job.open None 2))
    as (Hopen & _ & _); [by vm_compute | by vm_compute |].
  destruct Hopen as (Hr & Ha & _ & Hrej & _); [done | done | by vm_compute |].
  destruct (acceptBid_spec store_assigned owner 2
              (Bid.mk 102 0 450 "Happy to help with it" 5 Bid.rejected)
              (Job.mk "Landing page" "Build a landing page for a shop" "Web Development"
                 500 "fixed" [] None "intermediate" 100 Job.in_progress (Some 101) 2))
    as (_ & Hclosed & _); [by vm_compute | by vm_compute |].
  split_and!.
  - exact Hr.
  - exact Ha.
  - apply (Hrej 2 (Bid.mk 102 0 450 "Happy to help with it" 5 Bid.pending));
      [done | by vm_compute | done].
  - by apply Hclosed.
Defined.

(** Accepting the bid of alice keeps the invariant of the jobs. *)
Lemma job_invariant_preserved_witness : jobs_consistent store_assigned.
Proof.
  apply (job_invariant_preserved sample_hmac sample_parse sample_env
           (AcceptBid owner 1) store_open).
  - apply reachable_store_open.
  - apply (bool_decide_unpack _). by vm_compute.
  - simpl. tauto.
Defined.

(** C2 does not hold of every operation: the owner of the open job 0 sets its
    status to completed; the job is then completed and assigned to nobody. *)
Lemma job_invariant_counterexample :
  reachable sample_hmac sample_parse sample_env store_open
  ∧ jobs_consistent store_open
  ∧ (updateJob owner 0 (JobUpdate.mk None None None None (Some "completed")) store_open).2
    = Json 200 "Job updated successfully"
  ∧ ¬ jobs_consistent
        (handle sample_hmac sample_parse sample_env
           (UpdateJob owner 0 (JobUpdate.mk None None None None (Some "completed")))
           store_open).1.
Proof.
  split_and!.
  - apply reachable_store_open.
  - apply (bool_decide_unpack _). by vm_compute.
  - by vm_compute.
  - intros H. apply map_Forall_lookup in H.
    specialize (H 0 (Job.mk "Landing page" "Build a landing page for a shop"
                       "Web Development" 500 "fixed" [] None "intermediate" 100
                       Job.completed None 2)).
    destruct H as [_ H]; [by vm_compute|].
    destruct H as [? H]; [by right | done].
Qed.

(** An outsider sends a wrong signature for [order_1]: the payment fails and
    job 0 stays in progress. *)
Lemma verifyPayment_mismatch_witness :
  (verifyPayment sample_hmac sample_env mallory (verify_req "bad") store_ordered).2
  = Json 400 "Invalid payment signature"
  ∧ Payment.status <$>
      payments (verifyPayment sample_hmac sample_env mallory (verify_req "bad")
                  store_ordered).1 !! 0 = Some Payment.failed
  ∧ Job.status <$>
      jobs (verifyPayment sample_hmac sample_env mallory (verify_req "bad")
              store_ordered).1 !! 0 = Some Job.in_progress.
Proof.
  destruct (verifyPayment_mismatch sample_hmac sample_env store_ordered mallory
              "order_1" "pay_1" "bad" "secret" 0
              (Payment.mk 0 100 101 500 "order_1" None None Payment.created
                 "Payment for job: Landing page"))
    as (Hr & _ & (p' & Hp' & Hst) & _ & Hjobs & _);
    [by vm_compute | done | by vm_compute |].
  split_and!.
  - exact Hr.
  - unfold verify_req. rewrite Hp'. simpl. by rewrite Hst.
  - unfold verify_req. rewrite Hjobs. by vm_compute.
Defined.

(** The owner sends the matching signature for [order_1]: the payment is paid
    and job 0 is completed. *)
Lemma verifyPayment_match_witness :
  (verifyPayment sample_hmac sample_env owner (verify_req good_signature) store_ordered).2
  = Json 200 "Payment verified successfully"
  ∧ Job.status <$>
      jobs (verifyPayment sample_hmac sample_env owner (verify_req good_signature)
              store_ordered).1 !! 0 = Some Job.completed.
Proof.
  destruct (verifyPayment_match sample_hmac sample_env store_ordered owner
              "order_1" "pay_1" good_signature "secret" 0
              (Payment.mk 0 100 101 500 "order_1" None None Payment.created
                 "Payment for job: Landing page")
              (Job.mk "Landing page" "Build a landing page for a shop" "Web Development"
                 500 "fixed" [] None "intermediate" 100 Job.in_progress (Some 101) 2))
    as (Hr & _ & (job' & Hjob' & Hst) & _);
    [by vm_compute | done | by vm_compute | by vm_compute |].
  split.
  - exact Hr.
  - unfold verify_req. cbn [Payment.jobId] in Hjob'. rewrite Hjob'.
    cbn [fmap option_fmap option_map]. by rewrite Hst.
Defined.

(** Once job 0 is completed, verifying the payment again or replaying the
    notification of its capture changes nothing. *)
Lemma settlement_idempotent_witness :
  verifyPayment sample_hmac sample_env mallory (verify_req good_signature) store_paid
  = (store_paid, Json 200 "Payment verified successfully")
  ∧ handlePaymentCaptured {| order_id := "order_1"; entity_id := "pay_1" |} store_paid
    = store_paid.
Proof.
  destruct (settlement_idempotent sample_hmac sample_parse sample_env store_ordered
              owner mallory (verify_req good_signature)
              {| order_id := "order_1"; entity_id := "pay_1" |} None "")
    as (_ & Hverify & _).
  split.
  - apply Hverify. by vm_compute.
  - by vm_compute.
Defined.

(** alice bids a second time on job 0. *)
Lemma placeBid_duplicate_witness :
  placeBid alice bid_of_alice store_open
  = (store_open, Json 400 "You have already bid on this job").
Proof.
  destruct (placeBid_duplicate sample_hmac sample_parse sample_env store_open alice
              bid_of_alice 1 (Bid.mk 101 0 400 "I can do this in a week" 7 Bid.pending))
    as (Hstore & (job & Hjob & Hreply) & _);
    [apply reachable_store_open | by vm_compute | done | done |].
  rewrite (surjective_pairing (placeBid alice bid_of_alice store_open)).
  rewrite Hstore, Hreply by done.
  assert (job = Job.mk "Landing page" "Build a landing page for a shop" "Web Development"
                  500 "fixed" [] None "intermediate" 100 Job.open None 2) as ->
    by (vm_compute in Hjob; congruence).
  done.
Defined.

Lemma reachable_store_assigned :
  reachable sample_hmac sample_parse sample_env store_assigned.
Proof. apply reachable_run, reachable_store_open. Qed.

Lemma reachable_store_rejected :
  reachable sample_hmac sample_parse sample_env store_rejected.
Proof. apply reachable_run, reachable_store_open. Qed.

Lemma reachable_store_paid : reachable sample_hmac sample_parse sample_env store_paid.
Proof. do 2 apply reachable_run. apply reachable_store_assigned. Qed.

(** alice tries to delete her bid after it was accepted. *)
Lemma decided_bid_stable_witness :
  deleteBid alice 1 store_assigned
  = (store_assigned, Json 400 "Cannot delete a bid that has been accepted or rejected").
Proof.
  destruct (decided_bid_stable sample_hmac sample_parse sample_env
              (DeleteBid alice 1) store_assigned 1
              (Bid.mk 101 0 400 "I can do this in a week" 7 Bid.accepted))
    as (Hdelete & _);
    [apply reachable_store_assigned | by vm_compute | done |].
  destruct (Hdelete alice) as [Hstore Hreply].
  rewrite (surjective_pairing (deleteBid alice 1 store_assigned)).
  by rewrite Hstore, Hreply.
Defined.

(** C7 does not hold of accepting: the owner rejected the bid of alice while
    job 0 was open; the owner then accepts it, and the rejected bid is
    accepted. *)
Lemma decided_bid_counterexample :
  reachable sample_hmac sample_parse sample_env store_rejected
  ∧ Bid.status <$> bids store_rejected !! 1 = Some Bid.rejected
  ∧ (handle sample_hmac sample_parse sample_env (AcceptBid owner 1) store_rejected).2
    = Json 200 "Bid accepted successfully"
  ∧ Bid.status <$>
      bids (handle sample_hmac sample_parse sample_env (AcceptBid owner 1)
              store_rejected).1 !! 1
    = Some Bid.accepted.
Proof.
  split_and!; [apply reachable_store_rejected | by vm_compute..].
Qed.

(** The reject route does not look at the status of the bid either: the
    accepted bid of alice is rejected, and job 0 stays in progress and
    assigned to her. *)
Example rejectBid_accepted :
  Bid.status <$> bids store_assigned !! 1 = Some Bid.accepted
  ∧ (rejectBid owner 1 store_assigned).2 = Json 200 "Bid rejected successfully"
  ∧ Bid.status <$> bids store_unaccepted !! 1 = Some Bid.rejected
  ∧ jobs store_unaccepted = jobs store_assigned.
Proof. split_and!; by vm_compute. Qed.

(** A second verification of the paid payment, with a wrong signature. *)
Lemma paid_payment_transitions_witness :
  ∃ p', payments (verifyPayment sample_hmac sample_env mallory (verify_req "bad")
                    store_paid).1 !! 0 = Some p'
    ∧ (Payment.status p' = Payment.paid ∨ Payment.status p' = Payment.failed).
Proof.
  destruct (paid_payment_transitions sample_hmac sample_parse sample_env
              (VerifyPayment mallory (verify_req "bad")) store_paid 0
              (Payment.mk 0 100 101 500 "order_1" (Some "pay_1") (Some good_signature)
                 Payment.paid "Payment for job: Landing page"))
    as (p' & Hp' & Hst & _); [by vm_compute | done |].
  exists p'. by split.
Defined.

(** C8 does not hold of the verify route: the payment of [order_1] is paid;
    an outsider then sends a verification for the order with the signature
    "bad", and the payment is failed. This is so for every keyed digest that
    differs from "bad", as every digest of 64 hexadecimal digits does. A
    notification of failure for the order has the same effect. *)
Lemma paid_payment_counterexample :
  reachable sample_hmac sample_parse sample_env store_paid
  ∧ Payment.status <$> payments store_paid !! 0 = Some Payment.paid
  ∧ (∀ h : string → string → string,
       h "secret" "order_1|pay_1" ≠ "bad" →
       (verifyPayment h sample_env mallory (verify_req "bad") store_paid).2
       = Json 400 "Invalid payment signature"
       ∧ Payment.status <$>
           payments (verifyPayment h sample_env mallory (verify_req "bad")
                       store_paid).1 !! 0
         = Some Payment.failed)
  ∧ Payment.status <$>
      payments (handle sample_hmac sample_parse sample_env
                  (VerifyPayment mallory (verify_req "bad")) store_paid).1 !! 0
    = Some Payment.failed
  ∧ Payment.status <$>
      payments (handlePaymentFailed {| order_id := "order_1"; entity_id := "pay_1" |}
                  store_paid) !! 0
    = Some Payment.failed.
Proof.
  split_and!; [apply reachable_store_paid | by vm_compute | | by vm_compute..].
  intros h Hh. unfold verify_req.
  rewrite (verifyPayment_found h sample_env mallory "order_1" "pay_1" "bad" "secret" 0
             (Payment.mk 0 100 101 500 "order_1" (Some "pay_1") (Some good_signature)
                Payment.paid "Payment for job: Landing page") store_paid)
    by by vm_compute.
  rewrite decide_True by exact Hh.
  split; by vm_compute.
Qed.

(** The matching signature of [order_1] is accepted; with the lowest bit of
    its first character flipped it is rejected. *)
Lemma signature_check_witness :
  rejects (verifyPayment sample_hmac sample_env mallory
             (verify_req (flip_bit 0 0 good_signature)) store_ordered).2.
Proof.
  destruct (signature_check sample_hmac sample_env sample_env store_ordered store_ordered
              owner mallory "order_1" "pay_1" good_signature "secret" 0 0
              (Payment.mk 0 100 101 500 "order_1" None None Payment.created
                 "Payment for job: Landing page")
              (Payment.mk 0 100 101 500 "order_1" None None Payment.created
                 "Payment for job: Landing page"))
    as [_ Hflip]; [done | done | by vm_compute | by vm_compute |].
  apply Hflip; [by vm_compute | vm_compute; lia | lia].
Defined.

(** mallory, who has no part in the payment of [order_1], verifies it with
    the matching signature: job 0 of the owner is completed. *)
Lemma verifyPayment_any_caller_witness :
  (verifyPayment sample_hmac sample_env mallory (verify_req good_signature)
     store_ordered).2 = Json 200 "Payment verified successfully"
  ∧ Job.status <$>
      jobs (verifyPayment sample_hmac sample_env mallory (verify_req good_signature)
              store_ordered).1 !! 0 = Some Job.completed.
Proof.
  destruct (verifyPayment_any_caller sample_hmac sample_env store_ordered
              (verify_req good_signature)) as [_ Hany].
  destruct (Hany mallory "order_1" "pay_1" "secret" 0
              (Payment.mk 0 100 101 500 "order_1" None None Payment.created
                 "Payment for job: Landing page")
              (Job.mk "Landing page" "Build a landing page for a shop" "Web Development"
                 500 "fixed" [] None "intermediate" 100 Job.in_progress (Some 101) 2))
    as (Hr & _ & Hjob); [done | by vm_compute | done | by vm_compute | done..|].
  by split.
Defined.

(** * Further theorems on the worked scenario *)

Lemma reachable_store_ordered :
  reachable sample_hmac sample_parse sample_env store_ordered.
Proof. apply reachable_run, reachable_store_assigned. Qed.

(** Job 0 has two bids and counts two. *)
Lemma bidsCount_counts_bids_witness :
  Job.bidsCount job_open = Z.of_nat (bid_count 0 (bids store_open)).
Proof.
  apply (bidsCount_counts_bids sample_hmac sample_parse sample_env store_open 0 job_open);
    [apply reachable_store_open | by vm_compute].
Defined.

(** The owner rejects the bid of alice. *)
Lemma bid_change_authorized_witness :
  (∃ u job, jobs store_open !! Bid.jobId stored_bid_of_alice = Some job
     ∧ Job.createdBy job = user_id u
     ∧ ((∃ k, RejectBid owner 1 = AcceptBid u k)
        ∨ RejectBid owner 1 = RejectBid u 1
        ∨ RejectBid owner 1 = DeleteJob u (Bid.jobId stored_bid_of_alice)))
  ∨ (∃ u, RejectBid owner 1 = DeleteBid u 1
        ∧ Bid.freelancerId stored_bid_of_alice = user_id u
        ∧ Bid.status stored_bid_of_alice = Bid.pending).
Proof.
  apply (bid_change_authorized sample_hmac sample_parse sample_env (RejectBid owner 1)
           store_open 1 stored_bid_of_alice);
    [apply reachable_store_open | by vm_compute | by vm_compute].
Defined.

Lemma bids_registered_store_open : bids_registered store_open.
Proof.
  change (map_Forall (λ _ b, Bid.freelancerId b ∈ users store_open) (bids store_open)).
  apply (bool_decide_unpack _). by vm_compute.
Qed.

Lemma accepted_unique_store_open : accepted_unique (bids store_open).
Proof.
  assert (map_Forall (λ _ b, Bid.status b ≠ Bid.accepted) (bids store_open)) as Hnone
    by (apply (bool_decide_unpack _); by vm_compute).
  intros i1 i2 b1 b2 H1 _ Ha1. by destruct (Hnone i1 b1 H1).
Qed.

(** After the owner accepted the bid of alice, job 0 has one accepted bid. *)
Lemma accepted_bid_unique_witness :
  accepted_unique
    (bids (handle sample_hmac sample_parse sample_env (AcceptBid owner 1) store_open).1)
  ∧ ((∀ u, caller (AcceptBid owner 1) = Some u → user_id u ∈ users store_open) →
     bids_registered
       (handle sample_hmac sample_parse sample_env (AcceptBid owner 1) store_open).1).
Proof.
  apply (accepted_bid_unique sample_hmac sample_parse sample_env (AcceptBid owner 1)
           store_open);
    [apply bids_registered_store_open | apply accepted_unique_store_open].
Defined.


(** Accepting the bid of alice keeps the creator of job 0 and assigns it. *)
Lemma job_fields_stable_witness :
  Job.createdBy job_assigned = Job.createdBy job_open
  ∧ Job.category job_assigned = Job.category job_open
  ∧ (is_Some (Job.assignedTo job_open) → is_Some (Job.assignedTo job_assigned))
  ∧ (Job.assignedTo job_assigned ≠ Job.assignedTo job_open →
     ∃ u k bid, AcceptBid owner 1 = AcceptBid u k ∧ Job.createdBy job_open = user_id u
       ∧ Job.status job_open = Job.open ∧ bids store_open !! k = Some bid
       ∧ Bid.jobId bid = 0
       ∧ Job.assignedTo job_assigned = Some (Bid.freelancerId bid)).
Proof.
  apply (job_fields_stable sample_hmac sample_parse sample_env (AcceptBid owner 1)
           store_open 0 job_open job_assigned);
    [apply reachable_store_open | by vm_compute | by vm_compute].
Defined.

(** The payment of [order_1] is paid by the verification with the matching
    signature. *)
Lemma payment_paid_provenance_witness :
  (∃ p, payments store_ordered !! 0 = Some p ∧ Payment.status p = Payment.paid)
  ∨ (∃ u pid key,
       VerifyPayment owner (verify_req good_signature)
       = VerifyPayment u
           (VerifyReq.mk (Some (Payment.razorpayOrderId payment_paid)) (Some pid)
              (Some (expectedSignature sample_hmac key
                       (Payment.razorpayOrderId payment_paid) pid)))
       ∧ RAZORPAY_KEY_SECRET sample_env = Some key)
  ∨ (∃ body key e,
       VerifyPayment owner (verify_req good_signature)
       = Webhook (Some (sample_hmac key body)) body
       ∧ or_else (RAZORPAY_WEBHOOK_SECRET sample_env) (RAZORPAY_KEY_SECRET sample_env)
         = Some key
       ∧ sample_parse body = Some (payment_captured e)
       ∧ order_id e = Payment.razorpayOrderId payment_paid).
Proof.
  apply (payment_paid_provenance sample_hmac sample_parse sample_env
           (VerifyPayment owner (verify_req good_signature)) store_ordered 0 payment_paid);
    [by vm_compute | done].
Defined.

(** The payer of the payment of [order_1] is the creator of job 0. *)
Lemma payer_is_job_creator_witness :
  Job.createdBy job_assigned = Payment.payerId payment_created.
Proof.
  apply (payer_is_job_creator sample_hmac sample_parse sample_env store_ordered
           payment_created job_assigned);
    [apply reachable_store_ordered | | by vm_compute].
  apply list_elem_of_lookup. exists 0. by vm_compute.
Defined.

(** The bid of alice has its job. *)
Lemma bid_has_job_witness : is_Some (jobs store_open !! Bid.jobId stored_bid_of_alice).
Proof.
  apply (bid_has_job sample_hmac sample_parse sample_env store_open 1 stored_bid_of_alice);
    [apply reachable_store_open | by vm_compute].
Defined.


(** The owner deletes job 0 with its two bids. *)
Lemma deleteJob_cascade_witness :
  (deleteJob owner 0 store_open).2 = Json 200 "Job deleted successfully"
  ∧ bids (deleteJob owner 0 store_open).1 = ∅.
Proof.
  destruct (deleteJob_cascade owner 0 store_open job_open) as (Hreply & _);
    [done | by vm_compute | done |].
  split; [exact Hreply | by vm_compute].
Defined.


(** mallory places a bid on job 0 and withdraws it. *)
Lemma placeBid_deleteBid_witness :
  deleteBid mallory (next_id store_open) (placeBid mallory bid_of_mallory store_open).1
  = (with_next_id (S (next_id store_open)) store_open, Json 200 "Bid deleted successfully").
Proof.
  apply (placeBid_deleteBid sample_hmac sample_parse sample_env mallory bid_of_mallory
           store_open);
    [apply reachable_store_open | by vm_compute].
Defined.

(** The owner deleted job 0; the payment of [order_1] is then verified with
    the matching signature. *)
Lemma verifyPayment_job_gone_witness :
  (verifyPayment sample_hmac sample_env owner
     (VerifyReq.mk (Some "order_1") (Some "pay_1")
        (Some (expectedSignature sample_hmac "secret" "order_1" "pay_1")))
     store_orphaned).2
  = Json 500 "Server error verifying payment"
  ∧ payments
      (verifyPayment sample_hmac sample_env owner
         (VerifyReq.mk (Some "order_1") (Some "pay_1")
            (Some (expectedSignature sample_hmac "secret" "order_1" "pay_1")))
         store_orphaned).1 !! 0
    = Some (Payment.settle "pay_1" (expectedSignature sample_hmac "secret" "order_1" "pay_1")
              payment_created)
  ∧ (∀ k, k ≠ 0 →
       payments
         (verifyPayment sample_hmac sample_env owner
            (VerifyReq.mk (Some "order_1") (Some "pay_1")
               (Some (expectedSignature sample_hmac "secret" "order_1" "pay_1")))
            store_orphaned).1 !! k
       = payments store_orphaned !! k)
  ∧ jobs
      (verifyPayment sample_hmac sample_env owner
         (VerifyReq.mk (Some "order_1") (Some "pay_1")
            (Some (expectedSignature sample_hmac "secret" "order_1" "pay_1")))
         store_orphaned).1
    = jobs store_orphaned.
Proof.
  apply (verifyPayment_job_gone sample_hmac sample_env store_orphaned owner
           "order_1" "pay_1" "secret" 0 payment_created);
    [by vm_compute | done | by vm_compute].
Defined.

(** The order of the owner for job 0 is the first of the owner's history. *)
Lemma paymentHistory_after_order_witness :
  ∃ p, payments store_ordered = payments store_assigned ++ [p]
    ∧ paymentHistory owner store_ordered = p :: paymentHistory owner store_assigned
    ∧ (∀ v, role v = freelancer → user_id v = Payment.payeeId p →
         paymentHistory v store_ordered = p :: paymentHistory v store_assigned)
    ∧ (∀ v, user_id v ≠ Payment.payerId p → user_id v ≠ Payment.payeeId p →
         paymentHistory v store_ordered = paymentHistory v store_assigned).
Proof.
  apply (paymentHistory_after_order owner (OrderReq.mk 0 500 None) "order_1"
           store_assigned store_ordered).
  by vm_compute.
Defined.

(** Job 0 is as the schema requires. *)
Lemma stored_job_valid_witness : job_valid job_open.
Proof.
  apply (stored_job_valid sample_hmac sample_parse sample_env store_open 0 job_open);
    [apply reachable_store_open | by vm_compute].
Defined.
